(** * moneybird-slack-bot: document normalisation, payment matching and
      the Slack callback endpoint

    A shallow embedding of [app.py] and [moneybird.py].  Python values
    that come out of [json.loads] / [r.json()] are a small inductive type,
    Python exceptions are an error result, [float] is IEEE binary64 as
    specified by the standard library's [SpecFloat], and calls to the
    accounting platform, the chat platform and the language model go
    through an explicit environment that records every call. *)

From Stdlib Require Import ZArith List String Ascii Bool Lia.
From Stdlib Require Import Floats.SpecFloat.
Import ListNotations.

Set Warnings "-register-all".

Local Open Scope string_scope.
Local Open Scope Z_scope.

(** ** Python runtime *)

Module Py.

(** The exception classes the program can meet.  All of them derive from
    [Exception]; [JSONDecodeError] derives from [ValueError]. *)
Inductive exn : Type :=
| AttributeError
| TypeError
| ValueError
| OverflowError
| KeyError
| IndexError
| JSONDecodeError
| HTTPError
| SlackApiError
| OtherException (name : string).

Inductive result (A : Type) : Type :=
| Ok (a : A)
| Raise (e : exn).
Arguments Ok {A} a.
Arguments Raise {A} e.

Definition bind {A B : Type} (r : result A) (k : A -> result B) : result B :=
  match r with
  | Ok a => k a
  | Raise e => Raise e
  end.

Definition is_ok {A : Type} (r : result A) : bool :=
  match r with Ok _ => true | Raise _ => false end.

(** [isinstance(e, ValueError)] on the classes above. *)
Definition is_ValueError (e : exn) : bool :=
  match e with ValueError | JSONDecodeError => true | _ => false end.

Definition is_AttributeError (e : exn) : bool :=
  match e with AttributeError => true | _ => false end.

(** A decoded JSON document: [None], [bool], [int], [float], [str],
    [list], and [dict] as an association list in insertion order (a key
    is looked up at its first binding). *)
Inductive value : Type :=
| VNone
| VBool (b : bool)
| VInt (z : Z)
| VFloat (f : spec_float)
| VStr (s : string)
| VList (l : list value)
| VDict (d : list (string * value)).

Definition dict : Type := list (string * value).

(** Truth value of an object, as [if x:], [x or y] and [not x] test it. *)
Definition truthy (v : value) : bool :=
  match v with
  | VNone => false
  | VBool b => b
  | VInt z => negb (z =? 0)
  | VFloat (S754_zero _) => false
  | VFloat _ => true
  | VStr s => negb (String.eqb s "")
  | VList l => match l with [] => false | _ => true end
  | VDict d => match d with [] => false | _ => true end
  end.

(** [x or y], with [y] already evaluated and not raising. *)
Definition or_else (x y : value) : value := if truthy x then x else y.

Fixpoint lookup (k : string) (d : dict) : option value :=
  match d with
  | [] => None
  | (k', v) :: d' => if String.eqb k k' then Some v else lookup k d'
  end.

(** [d.get(k, default)] on a dictionary. *)
Definition dict_get (d : dict) (k : string) (default : value) : value :=
  match lookup k d with
  | Some v => v
  | None => default
  end.

(** [x.get(k, default)] on any object: only a [dict] has [get]. *)
Definition get (x : value) (k : string) (default : value) : result value :=
  match x with
  | VDict d => Ok (dict_get d k default)
  | _ => Raise AttributeError
  end.

Definition is_dict (x : value) : bool :=
  match x with VDict _ => true | _ => false end.

Fixpoint chars (s : string) : list value :=
  match s with
  | EmptyString => []
  | String c s' => VStr (String c EmptyString) :: chars s'
  end.

(** The items [for item in x] runs over: the elements of a list, the
    characters of a string, the keys of a dictionary; anything else is
    not iterable. *)
Definition iter (x : value) : result (list value) :=
  match x with
  | VList l => Ok l
  | VStr s => Ok (chars s)
  | VDict d => Ok (map (fun kv => VStr (fst kv)) d)
  | _ => Raise TypeError
  end.

(** [x[0]]. *)
Definition item0 (x : value) : result value :=
  match x with
  | VList (v :: _) => Ok v
  | VList [] => Raise IndexError
  | VStr (String c _) => Ok (VStr (String c EmptyString))
  | VStr EmptyString => Raise IndexError
  | VDict _ => Raise KeyError
  | _ => Raise TypeError
  end.

(** [xs[:3]]. *)
Definition first3 {A : Type} (xs : list A) : list A := firstn 3 xs.

(** *** Strings.  A character is a code point below 256. *)

Fixpoint replace_char (old new : ascii) (s : string) : string :=
  match s with
  | EmptyString => EmptyString
  | String c s' =>
      String (if Ascii.eqb c old then new else c) (replace_char old new s')
  end.

(** [x.replace(",", ".")]: only [str] has this [replace]. *)
Definition replace_comma (x : value) : result string :=
  match x with
  | VStr s => Ok (replace_char "," "." s)
  | _ => Raise AttributeError
  end.

(** [s.split(sep, maxsplit)] for a one-character separator. *)
Fixpoint split_max (sep : ascii) (maxsplit : nat) (s : string) : list string :=
  match s with
  | EmptyString => [EmptyString]
  | String c s' =>
      match maxsplit with
      | O => [s]
      | S n =>
          if Ascii.eqb c sep then EmptyString :: split_max sep n s'
          else
            match split_max sep maxsplit s' with
            | [] => [String c EmptyString]
            | p :: ps => String c p :: ps
            end
      end
  end.

(** [x.split(":", maxsplit)]: only [str] has [split]. *)
Definition split_colon (x : value) (maxsplit : nat) : result (list string) :=
  match x with
  | VStr s => Ok (split_max ":" maxsplit s)
  | _ => Raise AttributeError
  end.

Definition is_ascii_char (c : ascii) : bool := (N_of_ascii c <? 128)%N.

Fixpoint is_ascii (s : string) : bool :=
  match s with
  | EmptyString => true
  | String c s' => is_ascii_char c && is_ascii s'
  end.

(** Characters that [float()] and [int()] strip from both ends: the C
    locale's white space and, of the code points 128..255, NEL and
    NBSP. *)
Definition is_space (c : ascii) : bool :=
  let n := N_of_ascii c in
  (((9 <=? n) && (n <=? 13)) || (n =? 32) || (n =? 133) || (n =? 160))%N.

Fixpoint lstrip (l : list ascii) : list ascii :=
  match l with
  | c :: l' => if is_space c then lstrip l' else l
  | [] => []
  end.

Definition strip (l : list ascii) : list ascii :=
  rev (lstrip (rev (lstrip l))).

Definition is_digit (c : ascii) : bool :=
  let n := N_of_ascii c in ((48 <=? n) && (n <=? 57))%N.

Definition digit_val (c : ascii) : Z := Z.of_N (N_of_ascii c) - 48.

(** Underscores in a numeric literal: each one stands between two
    digits.  [prev] is the character before the head of the list. *)
Fixpoint underscores_ok (prev : option ascii) (l : list ascii) : bool :=
  match l with
  | [] => match prev with
          | Some p => negb (Ascii.eqb p "_")
          | None => true
          end
  | c :: l' =>
      (if Ascii.eqb c "_"
       then match prev with Some p => is_digit p | None => false end
       else match prev with
            | Some p => negb (Ascii.eqb p "_") || is_digit c
            | None => true
            end)
      && underscores_ok (Some c) l'
  end.

Definition drop_underscores (l : list ascii) : list ascii :=
  filter (fun c => negb (Ascii.eqb c "_")) l.

Fixpoint span_digits (l : list ascii) : list ascii * list ascii :=
  match l with
  | c :: l' =>
      if is_digit c
      then let '(ds, rest) := span_digits l' in (c :: ds, rest)
      else ([], l)
  | [] => ([], [])
  end.

Definition digits_val (ds : list ascii) : Z :=
  fold_left (fun acc c => 10 * acc + digit_val c) ds 0.

Definition take_sign (l : list ascii) : bool * list ascii :=
  match l with
  | "-"%char :: l' => (true, l')
  | "+"%char :: l' => (false, l')
  | _ => (false, l)
  end.

Definition lower (c : ascii) : ascii :=
  let n := N_of_ascii c in
  if ((65 <=? n) && (n <=? 90))%N then ascii_of_N (n + 32) else c.

(** *** [float]: IEEE 754 binary64, round to nearest even *)

Definition prec : Z := 53.
Definition emax : Z := 1024.

Definition float : Type := spec_float.

(** The binary64 number nearest to [n / d], with sign [s]. *)
Definition float_of_ratio (s : bool) (n d : positive) : float :=
  let '(q, e, l) := SFdiv_core_binary prec emax (Zpos n) 0 (Zpos d) 0 in
  binary_round_aux prec emax s q e l.

(** The binary64 number nearest to [m * 10 ^ e10], with sign [s]. *)
Definition float_of_decimal (s : bool) (m e10 : Z) : float :=
  if m <=? 0 then S754_zero s
  else if 0 <=? e10
       then float_of_ratio s (Z.to_pos (m * 10 ^ e10)) 1
       else float_of_ratio s (Z.to_pos m) (Z.to_pos (10 ^ (- e10))).

(** [float(n)] for an [int], as arithmetic between a [float] and an
    [int] converts it. *)
Definition float_of_int (n : Z) : result float :=
  match binary_normalize prec emax n 0 false with
  | S754_infinity _ => Raise OverflowError
  | f => Ok f
  end.

Definition float_100 : float := binary_normalize prec emax 100 0 false.
Definition float_300 : float := binary_normalize prec emax 300 0 false.

Definition fmul (x y : float) : float := SFmul prec emax x y.
Definition fsub (x y : float) : float := SFsub prec emax x y.
Definition fabs (x : float) : float := SFabs x.
(** [x > y] *)
Definition fgt (x y : float) : bool := SFltb y x.

(** [int(x)] for a [float]: truncation towards zero. *)
Definition int_of_float (x : float) : result Z :=
  match x with
  | S754_zero _ => Ok 0
  | S754_infinity _ => Raise OverflowError
  | S754_nan => Raise ValueError
  | S754_finite s m e =>
      let a := if 0 <=? e then Zpos m * 2 ^ e else Zpos m / 2 ^ (- e) in
      Ok (if s then - a else a)
  end.

Definition is_exp_mark (c : ascii) : bool :=
  Ascii.eqb c "e" || Ascii.eqb c "E".

(** The exponent part of a decimal literal, [l] being what follows the
    mantissa: nothing, or [e], an optional sign and at least one digit,
    up to the end of the literal. *)
Definition parse_exponent (l : list ascii) : option Z :=
  match l with
  | [] => Some 0
  | c :: l1 =>
      if is_exp_mark c then
        let '(neg, l2) := take_sign l1 in
        match span_digits l2 with
        | ((_ :: _) as ds, []) =>
            Some (if neg then - digits_val ds else digits_val ds)
        | _ => None
        end
      else None
  end.

(** A decimal literal after its sign: digits, an optional point and
    digits, at least one digit in all, an optional exponent. *)
Definition parse_decimal (s : bool) (l : list ascii) : result float :=
  let '(ip, l1) := span_digits l in
  let '(fp, l2) :=
    match l1 with
    | "."%char :: r => span_digits r
    | _ => ([], l1)
    end in
  match (ip ++ fp)%list with
  | [] => Raise ValueError
  | ds =>
      match parse_exponent l2 with
      | Some e =>
          Ok (float_of_decimal s (digits_val ds)
                (e - Z.of_nat (List.length fp)))
      | None => Raise ValueError
      end
  end.

(** [float(s)] for a [str]. *)
Definition float_of_string (s : string) : result float :=
  let l := strip (list_ascii_of_string s) in
  if underscores_ok None l then
    let '(neg, body) := take_sign (drop_underscores l) in
    let w := string_of_list_ascii (map lower body) in
    if String.eqb w "inf" || String.eqb w "infinity" then Ok (S754_infinity neg)
    else if String.eqb w "nan" then Ok S754_nan
    else parse_decimal neg body
  else Raise ValueError.

(** *** [int(s)] for a [str], base 10.  A literal of more than 4300
    digits is refused. *)

Definition max_str_digits : nat := 4300.

Definition int_of_string (s : string) : result Z :=
  let l := strip (list_ascii_of_string s) in
  if underscores_ok None l then
    let '(neg, body) := take_sign (drop_underscores l) in
    match span_digits body with
    | ((_ :: _) as ds, []) =>
        if (max_str_digits <? List.length ds)%nat then Raise ValueError
        else Ok (if neg then - digits_val ds else digits_val ds)
    | _ => Raise ValueError
    end
  else Raise ValueError.

End Py.

Import Py.

Declare Scope result_scope.
Delimit Scope result_scope with result.
Notation "x <- r ;; k" := (Py.bind r (fun x => k))
  (at level 61, r at next level, right associativity) : result_scope.

(** ** Data model *)

(** One normalised line entry: the dictionary with keys [description]
    and [total_amount] that [extract_doc_info] appends. *)
Record line_item : Type := mk_line_item {
  li_description : value;
  li_total_amount : value
}.

(** The dictionary [extract_doc_info] returns, key by key. *)
Record doc_info : Type := mk_doc_info {
  di_id : value;
  di_type : string;
  di_contact : value;
  di_date : value;
  di_amount : value;
  di_currency : value;
  di_description : value;
  di_line_items : list line_item;
  di_attachments : value
}.

(** The dictionary [find_payment_candidates] appends for a transaction.
    It has no [verdict] key until [process_document] stores one. *)
Record candidate : Type := mk_candidate {
  c_id : value;
  c_date : value;
  c_amount : value;
  c_description : value;
  c_contact : value;
  c_verdict : option value
}.

(** ** app.extract_doc_info *)

(** The name of the counterparty: lines 45-49 of [app.py]. *)
Definition contact_name_of (raw : value) : result value :=
  (c <- get raw "contact" VNone ;;
   if truthy c then
     company <- get c "company_name" VNone ;;
     if truthy company then Ok company
     else get c "firstname" (VStr "")
   else
     cid <- get raw "contact_id" VNone ;;
     if truthy cid then get raw "contact_id" (VStr "")
     else Ok (VStr ""))%result.

(** [raw.get("total_amount") or raw.get("total_amount_incl_tax") or "0"] *)
Definition amount_of (raw : value) : result value :=
  (total <- get raw "total_amount" VNone ;;
   if truthy total then Ok total
   else
     incl <- get raw "total_amount_incl_tax" VNone ;;
     Ok (or_else incl (VStr "0")))%result.

(** The dictionary appended for one entry of [details]. *)
Definition line_item_of (item : value) : result line_item :=
  (description <- get item "description" (VStr "") ;;
   incl <- get item "total_amount_incl_tax" VNone ;;
   total <- (if truthy incl then Ok incl
             else get item "total_amount" (VStr "")) ;;
   Ok (mk_line_item description total))%result.

(** The loop over [raw.get("details", [])]; [line_items] is the list
    built so far. *)
Fixpoint append_line_items (items : list value) (line_items : list line_item)
  : result (list line_item) :=
  match items with
  | [] => Ok line_items
  | item :: items' =>
      (li <- line_item_of item ;;
       append_line_items items' (line_items ++ [li]))%result
  end.

Definition extract_doc_info (raw : value) (doc_type : string)
  : result doc_info :=
  (contact_name <- contact_name_of raw ;;
   amount <- amount_of raw ;;
   details <- get raw "details" (VList []) ;;
   items <- iter details ;;
   line_items <- append_line_items items [] ;;
   id <- get raw "id" VNone ;;
   date <- get raw "date" VNone ;;
   date <- (if truthy date then Ok date
            else get raw "invoice_date" (VStr "")) ;;
   currency <- get raw "currency" VNone ;;
   reference <- get raw "reference" VNone ;;
   description <-
     (if truthy reference then Ok reference
      else
        seq_id <- get raw "invoice_sequence_identifier" VNone ;;
        Ok (or_else seq_id (VStr ""))) ;;
   attachments <- get raw "attachments" (VList []) ;;
   Ok {| di_id := id;
         di_type := doc_type;
         di_contact := contact_name;
         di_date := date;
         di_amount := amount;
         di_currency := or_else currency (VStr "EUR");
         di_description := description;
         di_line_items := line_items;
         di_attachments := attachments |})%result.

(** ** Amounts in minor units *)

(** [int(float(x.replace(",", ".")) * 100)], the expression both
    [find_payment_candidates] and [process_document] evaluate. *)
Definition minor_units (x : value) : result Z :=
  (s <- replace_comma x ;;
   f <- float_of_string s ;;
   int_of_float (fmul f float_100))%result.

Arguments minor_units : simpl never.

(** ** moneybird.find_payment_candidates, after the transactions are
    fetched *)

(** The dictionary appended for a transaction within tolerance. *)
Definition candidate_of (m : value) : result candidate :=
  (id <- get m "id" VNone ;;
   date <- get m "date" VNone ;;
   amount <- get m "amount" VNone ;;
   message <- get m "message" VNone ;;
   description <-
     (if truthy message then Ok message
      else
        d <- get m "description" VNone ;;
        Ok (or_else d (VStr ""))) ;;
   c <- get m "contact" VNone ;;
   contact <-
     (if truthy c then
        c' <- get m "contact" (VDict []) ;;
        get c' "company_name" VNone
      else Ok (VStr "")) ;;
   Ok (mk_candidate id date amount description contact None))%result.

(** The [try] block of the loop: [Some] amount, [None] when the
    [except (ValueError, AttributeError)] clause runs [continue]; any
    other exception leaves the function. *)
Definition m_amount_of (m : value) : result (option Z) :=
  match (a <- get m "amount" (VStr "0") ;; minor_units a)%result with
  | Ok n => Ok (Some n)
  | Raise e =>
      if is_ValueError e || is_AttributeError e then Ok None else Raise e
  end.

(** The loop over [mutations]; [candidates] is the list built so far. *)
Fixpoint scan_mutations (mutations : list value) (amount_cents : Z)
    (tolerance_cents : Z) (candidates : list candidate)
  : result (list candidate) :=
  match mutations with
  | [] => Ok candidates
  | m :: rest =>
      (a <- m_amount_of m ;;
       match a with
       | None => scan_mutations rest amount_cents tolerance_cents candidates
       | Some m_amount =>
           if Z.abs (m_amount - amount_cents) <=? tolerance_cents then
             c <- candidate_of m ;;
             scan_mutations rest amount_cents tolerance_cents
               (candidates ++ [c])
           else scan_mutations rest amount_cents tolerance_cents candidates
       end)%result
  end.

(** ** The outside world *)

(** A call that leaves the process: the two HTTP helpers of
    [moneybird.py] and its attachment download, and the functions of
    [slack_notifier.py] and [journal_ai.py], taken at their boundary. *)
Inductive call : Type :=
| HttpGet (path : string) (params : list (string * string))
| HttpPatch (path : string) (payload : value)
| GetAttachmentContent (document_type document_id : string)
    (attachment_id : value)
| UploadAttachment (file_bytes filename : value) (channel_id : string)
| PostDocumentNotification (info : doc_info) (journal : value)
    (payment_candidates : list candidate) (attachment_permalink : value)
| UpdateMessageBooked (channel ts : value) (label : string) (contact : value)
| UpdateMessageSkipped (channel ts : value) (label : string) (contact : value)
| UpdateMessagePaymentLinked (channel ts : value) (label : string)
    (contact : value) (mutation_date : string)
| SuggestJournalEntry (info : doc_info)
| SuggestPaymentMatch (payment_candidate : candidate) (info : doc_info).

(** What a run leaves behind: the calls it made and the [[ERROR]] lines
    it printed, in order. *)
Inductive event : Type :=
| Called (c : call)
| PrintedError (where_ : string) (e : exn).

(** An HTTP response of a view function: status code and JSON body. *)
Record response : Type := mk_response {
  status : Z;
  body : value
}.

(** What [slack_actions] reads of the request. *)
Record request : Type := mk_request {
  header_timestamp : option string;   (* X-Slack-Request-Timestamp *)
  header_signature : option string;   (* X-Slack-Signature *)
  data : string;                      (* get_data(as_text=True) *)
  form_payload : option string        (* form["payload"] *)
}.

Definition DOC_TYPE_LABEL (doc_type : string) : string :=
  if String.eqb doc_type "receipt" then "Receipt"
  else if String.eqb doc_type "purchase_invoice" then "Purchase Invoice"
  else "Document".

Definition or_default (o : option string) (default : string) : string :=
  match o with Some s => s | None => default end.

(** [hmac.compare_digest(a, b)] on two [str]: both must be ASCII. *)
Definition compare_digest (a b : string) : result bool :=
  if is_ascii a && is_ascii b then Ok (String.eqb a b)
  else Raise TypeError.

(** The text of U+2014, as its UTF-8 bytes. *)
Definition em_dash : string :=
  String (ascii_of_N 226) (String (ascii_of_N 128)
    (String (ascii_of_N 148) EmptyString)).

Definition set_verdict (c : candidate) (v : value) : candidate :=
  mk_candidate (c_id c) (c_date c) (c_amount c) (c_description c)
    (c_contact c) (Some v).

Declare Scope run_scope.
Delimit Scope run_scope with run.

Section Program.

(** The state of the world outside the process, and how it answers a
    call. *)
Variable W : Type.
Variable respond : call -> W -> result value * W.

(** Process configuration. *)
Variable SLACK_SIGNING_SECRET : string.
Variable SLACK_CHANNEL_ID : string.

(** Library functions: [hmac.new(key, msg, sha256).hexdigest()] on the
    UTF-8 encodings, [json.loads], and the text of a value in an
    f-string. *)
Variable hmac_sha256_hexdigest : string -> string -> string.
Variable json_loads : string -> result value.
Variable format_value : value -> string.

(** *** Computations that call out, raise and print *)

Definition run_state : Type := (W * list event)%type.
Definition M (A : Type) : Type := run_state -> result A * run_state.

Definition ret {A : Type} (a : A) : M A := fun s => (Ok a, s).
Definition raise {A : Type} (e : exn) : M A := fun s => (Raise e, s).

Definition mbind {A B : Type} (m : M A) (k : A -> M B) : M B :=
  fun s =>
    match m s with
    | (Ok a, s') => k a s'
    | (Raise e, s') => (Raise e, s')
    end.

(** [try: m  except Exception as e: handler e] *)
Definition catch {A : Type} (m : M A) (handler : exn -> M A) : M A :=
  fun s =>
    match m s with
    | (Ok a, s') => (Ok a, s')
    | (Raise e, s') => handler e s'
    end.

Definition lift {A : Type} (r : result A) : M A := fun s => (r, s).

Definition do_call (c : call) : M value :=
  fun '(w, tr) =>
    let '(r, w') := respond c w in (r, (w', (tr ++ [Called c])%list)).

Definition print_error (where_ : string) (e : exn) : M unit :=
  fun '(w, tr) => (Ok tt, (w, (tr ++ [PrintedError where_ e])%list)).

Notation "x <- m ;; k" := (mbind m (fun x => k))
  (at level 61, m at next level, right associativity) : run_scope.
Notation "m ;;; k" := (mbind m (fun _ => k))
  (at level 61, right associativity) : run_scope.

Local Open Scope run_scope.

(** *** moneybird.py *)

Definition _get (path : string) (params : list (string * string)) : M value :=
  do_call (HttpGet path params).

Definition _patch (path : string) (payload : value) : M value :=
  do_call (HttpPatch path payload).

Definition get_receipt (receipt_id : string) : M value :=
  _get ("documents/receipts/" ++ receipt_id) [].

Definition get_typeless_document (doc_id : string) : M value :=
  _get ("documents/typeless_documents/" ++ doc_id) [].

Definition get_purchase_invoice (invoice_id : string) : M value :=
  _get ("documents/purchase_invoices/" ++ invoice_id) [].

Definition get_attachment_content (document_type document_id : string)
    (attachment_id : value) : M value :=
  do_call (GetAttachmentContent document_type document_id attachment_id).

Definition book_receipt (receipt_id : string) : M value :=
  _patch ("documents/receipts/" ++ receipt_id)
    (VDict [("receipt", VDict [("state", VStr "booked")])]).

Definition book_purchase_invoice (invoice_id : string) : M value :=
  _patch ("documents/purchase_invoices/" ++ invoice_id)
    (VDict [("purchase_invoice", VDict [("state", VStr "booked")])]).

Definition get_unreconciled_payments : M (list value) :=
  catch
    (mutations <- _get "financial_mutations" [("filter", "state:unprocessed")] ;;
     ret match mutations with VList l => l | _ => [] end)
    (fun _ => ret []).

(** The source's defaults are [contact_name=None] and
    [tolerance_cents=100]; callers here pass them explicitly. *)
Definition find_payment_candidates (amount_cents : Z) (contact_name : value)
    (tolerance_cents : Z) : M (list candidate) :=
  mutations <- get_unreconciled_payments ;;
  lift (scan_mutations mutations amount_cents tolerance_cents []).

Definition link_payment_to_receipt (receipt_id financial_mutation_id : string)
  : M value :=
  _patch ("documents/receipts/" ++ receipt_id)
    (VDict [("receipt",
       VDict [("financial_mutations_attributes",
         VList [VDict [("financial_mutation_id",
                        VStr financial_mutation_id)]])])]).

Definition link_payment_to_purchase_invoice
    (invoice_id financial_mutation_id : string) : M value :=
  _patch ("documents/purchase_invoices/" ++ invoice_id)
    (VDict [("purchase_invoice",
       VDict [("payments_attributes",
         VList [VDict [("financial_mutation_id",
                        VStr financial_mutation_id)]])])]).

(** *** app.verify_slack_signature

    [now] is what [time.time()] returns during the call. *)
Definition verify_slack_signature (req : request) (now : float)
  : result bool :=
  let timestamp := or_default (header_timestamp req) "" in
  (t <- int_of_string timestamp ;;
   tf <- float_of_int t ;;
   if fgt (fabs (fsub now tf)) float_300 then Ok false
   else
     let sig_basestring := "v0:" ++ timestamp ++ ":" ++ data req in
     let my_sig :=
       "v0=" ++ hmac_sha256_hexdigest SLACK_SIGNING_SECRET sig_basestring in
     let slack_sig := or_default (header_signature req) "" in
     compare_digest my_sig slack_sig)%result.

(** *** app.process_document *)

(** Lines 76-82: the fetch, with the typeless fallback for receipts. *)
Definition fetch_raw (doc_type doc_id : string) : M value :=
  if String.eqb doc_type "receipt" then
    catch (get_receipt doc_id) (fun _ => get_typeless_document doc_id)
  else get_purchase_invoice doc_id.

(** Lines 87-98: upload of the first attachment. *)
Definition upload_first_attachment (info : doc_info)
    (doc_type doc_id : string) : M value :=
  let attachments := di_attachments info in
  if truthy attachments then
    att <- lift (item0 attachments) ;;
    att_id <- lift (get att "id" VNone) ;;
    name <- lift (get att "filename" VNone) ;;
    let filename :=
      if truthy name then name
      else VStr ("attachment_" ++ format_value att_id) in
    file_bytes <- get_attachment_content (doc_type ++ "s") doc_id att_id ;;
    do_call (UploadAttachment file_bytes filename SLACK_CHANNEL_ID)
  else ret VNone.

(** Lines 104-107: the amount in minor units, 0 when it does not parse. *)
Definition amount_cents_of (info : doc_info) : M Z :=
  match minor_units (di_amount info) with
  | Ok n => ret n
  | Raise e =>
      if is_ValueError e || is_AttributeError e then ret 0 else raise e
  end.

(** Lines 111-112: the verdict stored in each of the given candidates. *)
Fixpoint add_verdicts (cs : list candidate) (info : doc_info)
  : M (list candidate) :=
  match cs with
  | [] => ret []
  | c :: cs' =>
      verdict <- do_call (SuggestPaymentMatch c info) ;;
      rest <- add_verdicts cs' info ;;
      ret (set_verdict c verdict :: rest)
  end.

(** Lines 84-120: everything after the fetch. *)
Definition process_raw (doc_type doc_id : string) (raw : value) : M unit :=
  info <- lift (extract_doc_info raw doc_type) ;;
  attachment_permalink <- upload_first_attachment info doc_type doc_id ;;
  journal <- do_call (SuggestJournalEntry info) ;;
  amount_cents <- amount_cents_of info ;;
  candidates <- find_payment_candidates amount_cents (di_contact info) 100 ;;
  judged <- add_verdicts (first3 candidates) info ;;
  do_call (PostDocumentNotification info journal
             (judged ++ skipn 3 candidates) attachment_permalink) ;;;
  ret tt.

Definition process_document (doc_type doc_id : string) : M unit :=
  catch
    (raw <- fetch_raw doc_type doc_id ;;
     process_raw doc_type doc_id raw)
    (fun e => print_error "process_document" e).

(** *** app.slack_actions *)

(** [payload.get(k1, {}).get(k2) or payload.get(k3, {}).get(k4, "")] *)
Definition get_either (payload : value) (k1 k2 k3 k4 : string)
  : result value :=
  (a <- get payload k1 (VDict []) ;;
   x <- get a k2 VNone ;;
   if truthy x then Ok x
   else
     b <- get payload k3 (VDict []) ;;
     get b k4 (VStr ""))%result.

Definition is_str (x : value) (s : string) : bool :=
  match x with VStr s' => String.eqb s' s | _ => false end.

(** Lines 185-201. *)
Definition book_document (value channel ts : value) : M unit :=
  parts <- lift (split_colon value 1) ;;
  match parts with
  | [doc_type; doc_id] =>
      let label := DOC_TYPE_LABEL doc_type in
      catch
        (info <-
           (if String.eqb doc_type "receipt" then
              raw <- get_receipt doc_id ;;
              info <- lift (extract_doc_info raw doc_type) ;;
              book_receipt doc_id ;;;
              ret info
            else
              raw <- get_purchase_invoice doc_id ;;
              info <- lift (extract_doc_info raw doc_type) ;;
              book_purchase_invoice doc_id ;;;
              ret info) ;;
         do_call (UpdateMessageBooked channel ts label (di_contact info)) ;;;
         ret tt)
        (fun e => print_error "book_document" e)
  | _ => ret tt
  end.

(** Lines 204-217. *)
Definition skip_document (value channel ts : value) : M unit :=
  parts <- lift (split_colon value 1) ;;
  match parts with
  | [doc_type; doc_id] =>
      let label := DOC_TYPE_LABEL doc_type in
      catch
        (raw <-
           (if String.eqb doc_type "receipt" then get_receipt doc_id
            else get_purchase_invoice doc_id) ;;
         info <- lift (extract_doc_info raw doc_type) ;;
         do_call (UpdateMessageSkipped channel ts label (di_contact info)) ;;;
         ret tt)
        (fun e => print_error "skip_document" e)
  | _ => ret tt
  end.

(** Lines 220-238. *)
Definition link_payment (value channel ts : value) : M unit :=
  parts <- lift (split_colon value 2) ;;
  match parts with
  | [doc_type; doc_id; mutation_id] =>
      let label := DOC_TYPE_LABEL doc_type in
      catch
        (info <-
           (if String.eqb doc_type "receipt" then
              raw <- get_receipt doc_id ;;
              info <- lift (extract_doc_info raw doc_type) ;;
              link_payment_to_receipt doc_id mutation_id ;;;
              ret info
            else
              raw <- get_purchase_invoice doc_id ;;
              info <- lift (extract_doc_info raw doc_type) ;;
              link_payment_to_purchase_invoice doc_id mutation_id ;;;
              ret info) ;;
         do_call (UpdateMessagePaymentLinked channel ts label
                    (di_contact info) em_dash) ;;;
         ret tt)
        (fun e => print_error "link_payment" e)
  | _ => ret tt
  end.

Definition invalid_signature : response :=
  mk_response 403 (VDict [("error", VStr "invalid signature")]).

Definition empty_ok : response := mk_response 200 (VDict []).

(** The view function.  A result [Raise e] is an exception that leaves
    the view; the web framework then answers with a server error. *)
Definition slack_actions (req : request) (now : float) : M response :=
  ok <- lift (verify_slack_signature req now) ;;
  if negb ok then ret invalid_signature
  else
    payload <- lift (json_loads (or_default (form_payload req) "{}")) ;;
    actions <- lift (get payload "actions" (VList [])) ;;
    if negb (truthy actions) then ret empty_ok
    else
      action <- lift (item0 actions) ;;
      action_id <- lift (get action "action_id" VNone) ;;
      value <- lift (get action "value" (VStr "")) ;;
      channel <- lift (get_either payload "container" "channel_id"
                         "channel" "id") ;;
      ts <- lift (get_either payload "container" "message_ts"
                    "message" "ts") ;;
      (if is_str action_id "book_document" then
         book_document value channel ts
       else if is_str action_id "skip_document" then
         skip_document value channel ts
       else if is_str action_id "link_payment" then
         link_payment value channel ts
       else ret tt) ;;;
      ret empty_ok.

End Program.

Local Open Scope list_scope.

(** ** Vocabulary of the statements *)

(** The contact field of a payload is usable: absent, falsy, or a
    dictionary. *)
Definition contact_ok (d : dict) : bool :=
  let c := dict_get d "contact" VNone in
  negb (truthy c) || is_dict c.

(** The details field of a payload is usable: absent, or something to
    iterate whose items are all dictionaries. *)
Definition details_ok (d : dict) : bool :=
  match iter (dict_get d "details" (VList [])) with
  | Ok items => forallb is_dict items
  | Raise _ => false
  end.

(** The counterparty name, by cases on the embedded contact. *)
Definition counterparty_name (d : dict) : value :=
  match dict_get d "contact" VNone with
  | VDict ((_ :: _) as c) =>
      or_else (dict_get c "company_name" VNone)
              (dict_get c "firstname" (VStr ""))
  | _ => or_else (dict_get d "contact_id" VNone) (VStr "")
  end.

(** The line item of a raw entry that is a dictionary. *)
Definition line_item_value (e : dict) : line_item :=
  {| li_description := dict_get e "description" (VStr "");
     li_total_amount :=
       or_else (dict_get e "total_amount_incl_tax" VNone)
               (dict_get e "total_amount" (VStr "")) |}.

(** The items of [details], one after the other, without the list built
    so far. *)
Fixpoint line_items_of (items : list value) : result (list line_item) :=
  match items with
  | [] => Ok []
  | item :: items' =>
      (li <- line_item_of item ;;
       lis <- line_items_of items' ;;
       Ok (li :: lis))%result
  end.

(** The record the normaliser returns for a usable payload. *)
Definition normal_form (d : dict) (doc_type : string)
    (line_items : list line_item) : doc_info :=
  {| di_id := dict_get d "id" VNone;
     di_type := doc_type;
     di_contact := counterparty_name d;
     di_date := or_else (dict_get d "date" VNone)
                        (dict_get d "invoice_date" (VStr ""));
     di_amount := or_else (dict_get d "total_amount" VNone)
                    (or_else (dict_get d "total_amount_incl_tax" VNone)
                             (VStr "0"));
     di_currency := or_else (dict_get d "currency" VNone) (VStr "EUR");
     di_description :=
       or_else (dict_get d "reference" VNone)
         (or_else (dict_get d "invoice_sequence_identifier" VNone) (VStr ""));
     di_line_items := line_items;
     di_attachments := dict_get d "attachments" (VList []) |}.

(** The request [get_unreconciled_payments] sends. *)
Definition unreconciled_query : call :=
  HttpGet "financial_mutations" [("filter", "state:unprocessed")].

(** The transactions [get_unreconciled_payments] makes of the answer: a
    list as it is, anything else and any failure the empty list. *)
Definition mutations_of (answer : result value) : list value :=
  match answer with
  | Ok (VList l) => l
  | _ => []
  end.

(** The amount of [m] parses and lies within the tolerance of the
    target. *)
Definition within_tolerance (amount_cents tolerance_cents : Z) (m : value)
  : bool :=
  match m_amount_of m with
  | Ok (Some m_amount) => Z.abs (m_amount - amount_cents) <=? tolerance_cents
  | _ => false
  end.

(** The candidate record of a transaction dictionary. *)
Definition candidate_value (m : dict) : candidate :=
  {| c_id := dict_get m "id" VNone;
     c_date := dict_get m "date" VNone;
     c_amount := dict_get m "amount" VNone;
     c_description :=
       or_else (dict_get m "message" VNone)
               (or_else (dict_get m "description" VNone) (VStr ""));
     c_contact :=
       match dict_get m "contact" VNone with
       | VDict ((_ :: _) as c) => dict_get c "company_name" VNone
       | _ => VStr ""
       end;
     c_verdict := None |}.

Definition dict_of (m : value) : dict :=
  match m with VDict d => d | _ => [] end.

(** A transaction the matcher can process for the given target and
    tolerance: evaluating its amount raises nothing but what the loop
    catches, and if it lies within tolerance its contact is absent,
    falsy or a dictionary. *)
Definition tx_ok (amount_cents tolerance_cents : Z) (m : value) : bool :=
  is_ok (m_amount_of m) &&
  (negb (within_tolerance amount_cents tolerance_cents m)
   || contact_ok (dict_of m)).

(** The same amount string with every comma turned into a dot. *)
Definition with_dots (s : string) : string := replace_char "," "." s.

(** A world that gives the same answer to every call. *)
Definition answering (answer : result value)
  : call -> unit -> result value * unit :=
  fun _ w => (answer, w).

(** The paths of the three document fetches. *)
Definition receipt_path (doc_id : string) : string :=
  ("documents/receipts/" ++ doc_id)%string.
Definition typeless_path (doc_id : string) : string :=
  ("documents/typeless_documents/" ++ doc_id)%string.
Definition invoice_path (doc_id : string) : string :=
  ("documents/purchase_invoices/" ++ doc_id)%string.

(** The path of the fetch the callback branches start with. *)
Definition document_path (doc_type doc_id : string) : string :=
  if String.eqb doc_type "receipt" then receipt_path doc_id
  else invoice_path doc_id.

(** The number of occurrences of a character in a string. *)
Fixpoint count_char (c : ascii) (s : string) : nat :=
  match s with
  | EmptyString => O
  | String c' s' => (if Ascii.eqb c' c then 1 else 0) + count_char c s'
  end.

(** Lines 173-182 of [app.py]: what the view reads of the payload
    before it dispatches; [None] when there is no action. *)
Definition read_action (payload : value)
  : result (option (value * value * value * value)) :=
  (actions <- get payload "actions" (VList []) ;;
   if negb (truthy actions) then Ok None
   else
     action <- item0 actions ;;
     action_id <- get action "action_id" VNone ;;
     value <- get action "value" (VStr "") ;;
     channel <- get_either payload "container" "channel_id" "channel" "id" ;;
     ts <- get_either payload "container" "message_ts" "message" "ts" ;;
     Ok (Some (action_id, value, channel, ts)))%result.

(** The events a run leaves behind. *)
Definition trace_of {W A : Type} (r : result A * run_state W) : list event :=
  snd (snd r).

(** A computation that only adds to the trace. *)
Definition extends {W A : Type} (m : M W A) : Prop :=
  forall s, exists tr', trace_of (m s) = snd s ++ tr'.

(** A computation whose first event is the call [c]. *)
Definition starts_with {W A : Type} (c : call) (m : M W A) : Prop :=
  forall s, exists tr', trace_of (m s) = snd s ++ Called c :: tr'.

(** A world in which the receipt 7 cannot be fetched and every other
    document is a bare dictionary. *)
Definition receipts_missing : call -> unit -> result value * unit :=
  fun c w =>
    match c with
    | HttpGet path _ =>
        if String.eqb path "documents/receipts/7" then (Raise HTTPError, w)
        else (Ok (VDict [("id", VStr "7")]), w)
    | _ => (Ok VNone, w)
    end.

(** A signing function for sample runs: every message has the empty
    digest. *)
Definition sample_hmac : string -> string -> string := fun _ _ => "".

(** A request that passes the verification under [sample_hmac] at time
    0. *)
Definition sample_request : request :=
  {| header_timestamp := Some "0";
     header_signature := Some "v0=";
     data := "";
     form_payload := Some "payload" |}.

(** A payload with one action. *)
Definition sample_payload (action_id v : string) : value :=
  VDict [("actions",
          VList [VDict [("action_id", VStr action_id);
                        ("value", VStr v)]])].

(** ** app.webhook *)

(** The two lines the view prints. *)
Inductive webhook_line : Type :=
| WebhookEvent (entity_type action entity_id : value)
| WebhookIgnored (entity_type action : value).

(** What one call of the view leaves: the answer, the arguments of the
    [process_document] thread it started, if any, and what it printed. *)
Record webhook_outcome : Type := mk_webhook_outcome {
  wo_response : response;
  wo_started : option (string * string);
  wo_printed : list webhook_line
}.

Definition status_body (s : string) : value := VDict [("status", VStr s)].

(** [action in ("created", "updated", "document_saved")] *)
Definition is_document_action (action : value) : bool :=
  is_str action "created" || is_str action "updated"
  || is_str action "document_saved".

Section Webhook.

(** [str(x)] of a value. *)
Variable format_value : value -> string.

(** [http_method] is [request.method]; [body] is what
    [request.get_json(force=True)] returns or raises. *)
Definition webhook (http_method : string) (body : result value)
  : result webhook_outcome :=
  if String.eqb http_method "GET" then
    Ok (mk_webhook_outcome (mk_response 200 (status_body "ok")) None [])
  else
    (parsed <- body ;;
     let payload := or_else parsed (VDict []) in
     k1 <- get payload "entity_type" VNone ;;
     k2 <- get payload "action" VNone ;;
     k3 <- get payload "entity_id" VNone ;;
     entity_type <- get payload "entity_type" (VStr "") ;;
     action <- get payload "action" (VStr "") ;;
     id <- get payload "entity_id" (VStr "") ;;
     let entity_id := format_value id in
     if is_str entity_type "Receipt" && is_document_action action then
       Ok (mk_webhook_outcome (mk_response 200 (status_body "ok"))
             (Some ("receipt", entity_id)) [WebhookEvent k1 k2 k3])
     else if is_str entity_type "PurchaseInvoice"
             && is_document_action action then
       Ok (mk_webhook_outcome (mk_response 200 (status_body "ok"))
             (Some ("purchase_invoice", entity_id)) [WebhookEvent k1 k2 k3])
     else
       Ok (mk_webhook_outcome (mk_response 200 (status_body "ignored"))
             None
             [WebhookEvent k1 k2 k3; WebhookIgnored entity_type action])
    )%result.

End Webhook.

(** ** journal_ai.suggest_journal_entry, from the model's reply on *)

(** White space as [str.strip()] removes it. *)
Definition is_str_space (c : ascii) : bool :=
  let n := N_of_ascii c in
  (((9 <=? n) && (n <=? 13)) || ((28 <=? n) && (n <=? 32))
   || (n =? 133) || (n =? 160))%N.

Fixpoint str_lstrip (s : string) : string :=
  match s with
  | String c s' => if is_str_space c then str_lstrip s' else s
  | EmptyString => EmptyString
  end.

Fixpoint str_rstrip (s : string) : string :=
  match s with
  | String c s' =>
      match str_rstrip s' with
      | EmptyString => if is_str_space c then EmptyString
                       else String c EmptyString
      | r => String c r
      end
  | EmptyString => EmptyString
  end.

Definition str_strip (s : string) : string := str_rstrip (str_lstrip s).

Definition fence : string := "```".

(** [s.split("```")], [cur] being the part read so far. *)
Fixpoint split_fence (s : string) (cur : string) : list string :=
  match s with
  | EmptyString => [cur]
  | String "`" (String "`" (String "`" rest)) => cur :: split_fence rest ""
  | String c s' => split_fence s' (cur ++ String c EmptyString)%string
  end.

(** [s[4:]] *)
Definition drop4 (s : string) : string :=
  match s with
  | String _ (String _ (String _ (String _ r))) => r
  | _ => EmptyString
  end.

(** Lines 44-49: the reply without surrounding white space and without
    its code fence. *)
Definition unfence (text : string) : result string :=
  let raw := str_strip text in
  if String.prefix fence raw then
    match split_fence raw "" with
    | _ :: inner :: _ =>
        Ok (if String.prefix "json" inner then drop4 inner else inner)
    | _ => Raise IndexError
    end
  else Ok raw.

Definition journal_fallback (raw : string) : value :=
  VDict [("debit", VStr "Uncategorized Expense");
         ("credit", VStr "Accounts Payable");
         ("explanation", VStr raw)].

Section JournalReply.

Variable json_loads : string -> result value.

(** Lines 44-57, [text] being [message.content[0].text]. *)
Definition journal_of_reply (text : string) : result value :=
  (raw <- unfence text ;;
   match json_loads raw with
   | Ok v => Ok v
   | Raise JSONDecodeError => Ok (journal_fallback raw)
   | Raise e => Raise e
   end)%result.

End JournalReply.

(** ** slack_notifier.post_document_notification *)

Definition nl : string := String (ascii_of_N 10) EmptyString.

(** Text outside ASCII, as UTF-8 bytes: U+2022, U+1F7E2, U+1F7E1,
    U+1F4B3, U+2705, U+274C. *)
Definition bullet : string :=
  String (ascii_of_N 226) (String (ascii_of_N 128)
    (String (ascii_of_N 162) EmptyString)).
Definition green_circle : string :=
  String (ascii_of_N 240) (String (ascii_of_N 159)
    (String (ascii_of_N 159) (String (ascii_of_N 162) EmptyString))).
Definition yellow_circle : string :=
  String (ascii_of_N 240) (String (ascii_of_N 159)
    (String (ascii_of_N 159) (String (ascii_of_N 161) EmptyString))).
Definition credit_card : string :=
  String (ascii_of_N 240) (String (ascii_of_N 159)
    (String (ascii_of_N 146) (String (ascii_of_N 179) EmptyString))).
Definition check_mark : string :=
  String (ascii_of_N 226) (String (ascii_of_N 156)
    (String (ascii_of_N 133) EmptyString)).
Definition cross_mark : string :=
  String (ascii_of_N 226) (String (ascii_of_N 157)
    (String (ascii_of_N 140) EmptyString)).

Definition mrkdwn (text : string) : value :=
  VDict [("type", VStr "mrkdwn"); ("text", VStr text)].

Definition plain_text (text : string) : value :=
  VDict [("type", VStr "plain_text"); ("text", VStr text)].

Definition section_block (text : string) : value :=
  VDict [("type", VStr "section"); ("text", mrkdwn text)].

Definition divider : value := VDict [("type", VStr "divider")].

Definition actions_block (elements : list value) : value :=
  VDict [("type", VStr "actions"); ("elements", VList elements)].

(** [s.upper().startswith("YES")] for a string of code points below
    256: of these only [y Y], [e E] and [s S] have an upper case
    beginning with the letter wanted, and U+00DF, whose upper case is
    [SS]. *)
Definition upper_starts_with_yes (s : string) : bool :=
  match s with
  | String c1 (String c2 (String c3 _)) =>
      (Ascii.eqb c1 "y" || Ascii.eqb c1 "Y")
      && (Ascii.eqb c2 "e" || Ascii.eqb c2 "E")
      && (Ascii.eqb c3 "s" || Ascii.eqb c3 "S"
          || Ascii.eqb c3 (ascii_of_N 223))
  | _ => false
  end.

(** [c.get("verdict", "")] *)
Definition verdict_of (c : candidate) : value :=
  match c_verdict c with Some v => v | None => VStr "" end.

Fixpoint join_lines (lines : list string) : string :=
  match lines with
  | [] => EmptyString
  | [l] => l
  | l :: ls => (l ++ nl ++ join_lines ls)%string
  end.

Section Notifier.

(** The text of a value in an f-string. *)
Variable format_value : value -> string.
Variable SLACK_CHANNEL_ID : string.
(** [client.chat_postMessage(channel=, text=, blocks=)] *)
Variable chat_postMessage : string -> string -> list value -> result value.

(** One entry of [candidate_lines]. *)
Definition candidate_line (c : candidate) : result string :=
  match verdict_of c with
  | VStr verdict =>
      let verdict_icon :=
        if upper_starts_with_yes verdict then green_circle
        else yellow_circle in
      Ok (verdict_icon ++ " `" ++ format_value (c_date c) ++ "` " ++ em_dash
          ++ " " ++ format_value (c_amount c) ++ " " ++ em_dash ++ " "
          ++ format_value (or_else (c_description c)
                             (VStr "No description")))%string
  | _ => Raise AttributeError
  end.

(** The loop over [payment_candidates[:3]]; [candidate_lines] is the
    list built so far. *)
Fixpoint append_candidate_lines (cs : list candidate)
    (candidate_lines : list string) : result (list string) :=
  match cs with
  | [] => Ok candidate_lines
  | c :: cs' =>
      (line <- candidate_line c ;;
       append_candidate_lines cs' (candidate_lines ++ [line]))%result
  end.

(** The value of the book and skip buttons, and of the link button. *)
Definition document_value (doc_type : string) (doc_id : value) : string :=
  (doc_type ++ ":" ++ format_value doc_id)%string.

Definition payment_value (doc_type : string) (doc_id top_id : value)
  : string :=
  (doc_type ++ ":" ++ format_value doc_id ++ ":" ++ format_value top_id)%string.

Definition link_button (doc_type : string) (doc_id top_id : value) : value :=
  VDict [("type", VStr "button");
         ("text", plain_text (credit_card ++ " Link this payment")%string);
         ("style", VStr "primary");
         ("action_id", VStr "link_payment");
         ("value", VStr (payment_value doc_type doc_id top_id))].

Definition book_button (doc_type label : string) (doc_id : value) : value :=
  VDict [("type", VStr "button");
         ("text", plain_text (check_mark ++ " OK " ++ em_dash
                              ++ " Book it")%string);
         ("style", VStr "primary");
         ("action_id", VStr "book_document");
         ("value", VStr (document_value doc_type doc_id));
         ("confirm",
          VDict [("title", plain_text "Confirm booking");
                 ("text", mrkdwn ("Book this " ++ label
                                  ++ " in Moneybird?")%string);
                 ("confirm", plain_text "Yes, book it");
                 ("deny", plain_text "Cancel")])].

Definition skip_button (doc_type : string) (doc_id : value) : value :=
  VDict [("type", VStr "button");
         ("text", plain_text (cross_mark ++ " NG " ++ em_dash
                              ++ " Skip")%string);
         ("action_id", VStr "skip_document");
         ("value", VStr (document_value doc_type doc_id))].

(** Lines 44-157: the blocks of the message. *)
Definition notification_blocks (info : doc_info) (journal : value)
    (payment_candidates : list candidate) (attachment_permalink : value)
  : result (list value) :=
  let doc_type := di_type info in
  let label := DOC_TYPE_LABEL doc_type in
  let doc_id := di_id info in
  let description := or_else (di_description info) (VStr em_dash) in
  (debit <- get journal "debit" (VStr em_dash) ;;
   credit <- get journal "credit" (VStr em_dash) ;;
   explanation <- get journal "explanation" (VStr "") ;;
   let blocks :=
     [VDict [("type", VStr "header");
             ("text", plain_text ("New " ++ label ++ " received")%string)];
      VDict [("type", VStr "section");
             ("fields",
              VList [mrkdwn ("*Vendor:*" ++ nl
                             ++ format_value (di_contact info))%string;
                     mrkdwn ("*Date:*" ++ nl
                             ++ format_value (di_date info))%string;
                     mrkdwn ("*Amount:*" ++ nl
                             ++ format_value (di_currency info) ++ " "
                             ++ format_value (di_amount info))%string;
                     mrkdwn ("*Description:*" ++ nl
                             ++ format_value description)%string])];
      divider;
      section_block
        ("*Journal Entry Suggestion*" ++ nl
         ++ bullet ++ " Debit: `" ++ format_value debit ++ "`" ++ nl
         ++ bullet ++ " Credit: `" ++ format_value credit ++ "`" ++ nl
         ++ "_" ++ format_value explanation ++ "_")%string] in
   let blocks :=
     if truthy attachment_permalink then
       blocks ++ [section_block
                    ("*Attachment:* <" ++ format_value attachment_permalink
                     ++ "|View file>")%string]
     else blocks in
   blocks <-
     match payment_candidates with
     | top :: _ =>
         candidate_lines <-
           append_candidate_lines (first3 payment_candidates) [] ;;
         Ok (blocks ++
             [divider;
              section_block
                ("*Payment Match Candidates* (bank transactions with similar amount)"
                 ++ nl ++ join_lines candidate_lines)%string;
              actions_block [link_button doc_type doc_id (c_id top)]])
     | [] =>
         Ok (blocks ++
             [divider;
              section_block "_No matching bank transactions found._"])
     end ;;
   Ok (blocks ++
       [actions_block [book_button doc_type label doc_id;
                       skip_button doc_type doc_id]]))%result.

Definition post_document_notification (info : doc_info) (journal : value)
    (payment_candidates : list candidate) (attachment_permalink : value)
  : result value :=
  (blocks <- notification_blocks info journal payment_candidates
               attachment_permalink ;;
   chat_postMessage SLACK_CHANNEL_ID
     ("New " ++ DOC_TYPE_LABEL (di_type info) ++ " from "
      ++ format_value (di_contact info) ++ " " ++ em_dash ++ " "
      ++ format_value (di_currency info) ++ " "
      ++ format_value (di_amount info))%string
     blocks)%result.

End Notifier.

(** The [value] fields of the buttons of a list of blocks, in order. *)
Definition element_value (element : value) : list string :=
  match element with
  | VDict d => match lookup "value" d with
               | Some (VStr s) => [s]
               | _ => []
               end
  | _ => []
  end.

Definition block_values (block : value) : list string :=
  match block with
  | VDict d =>
      if is_str (dict_get d "type" VNone) "actions" then
        match lookup "elements" d with
        | Some (VList elements) => flat_map element_value elements
        | _ => []
        end
      else []
  | _ => []
  end.

Definition button_values (blocks : list value) : list string :=
  flat_map block_values blocks.

(** Kinds of events. *)
Definition is_patch (ev : event) : bool :=
  match ev with Called (HttpPatch _ _) => true | _ => false end.

Definition is_post (ev : event) : bool :=
  match ev with
  | Called (PostDocumentNotification _ _ _ _) => true
  | _ => false
  end.

Definition is_print (ev : event) : bool :=
  match ev with PrintedError _ _ => true | _ => false end.

Definition is_verdict_request (ev : event) : bool :=
  match ev with Called (SuggestPaymentMatch _ _) => true | _ => false end.

(** A call that is not the posting of the notification. *)
Definition is_plain (ev : event) : bool := negb (is_post ev || is_print ev).

(** A computation that only adds events of one kind to the trace. *)
Definition adds {W A : Type} (P : event -> bool) (m : M W A) : Prop :=
  forall s, exists evs,
    trace_of (m s) = snd s ++ evs /\ forallb P evs = true.

(** The body of the booking request, by document kind. *)
Definition booked_payload (doc_type : string) : value :=
  if String.eqb doc_type "receipt"
  then VDict [("receipt", VDict [("state", VStr "booked")])]
  else VDict [("purchase_invoice", VDict [("state", VStr "booked")])].

(** The signature the view recomputes for a request. *)
Definition expected_signature (secret : string)
    (hmac : string -> string -> string) (req : request) : string :=
  ("v0=" ++ hmac secret
     ("v0:" ++ or_default (header_timestamp req) "" ++ ":" ++ data req))%string.

(** No backtick occurs in the string. *)
Definition no_backtick (s : string) : bool := Nat.eqb (count_char "`" s) 0.

(** A value that is a string. *)
Definition is_string (v : value) : bool :=
  match v with VStr _ => true | _ => false end.

(** A computation whose events are calls other than the posting of the
    notification, followed by at most that posting. *)
Definition post_last {W A : Type} (m : M W A) : Prop :=
  forall s, exists pre post,
    trace_of (m s) = snd s ++ pre ++ post /\
    forallb is_plain pre = true /\
    (post = [] \/
     exists info journal candidates permalink,
       post = [Called (PostDocumentNotification info journal candidates
                         permalink)]).

(** The exception that leaves the normaliser on a payload it cannot
    process. *)
Definition extract_error (d : dict) : exn :=
  if contact_ok d then
    if is_ok (iter (dict_get d "details" (VList []))) then AttributeError
    else TypeError
  else AttributeError.

(** [payload.get(k1, {}).get(k2) or payload.get(k3, {}).get(k4, "")]
    raises nothing on the dictionary [d]: the field [k1] is a dictionary
    or absent, and so is the field [k3] when the first lookup gives
    nothing true. *)
Definition consulted_ok (d : dict) (k1 k2 k3 : string) : bool :=
  match dict_get d k1 (VDict []) with
  | VDict c => truthy (dict_get c k2 VNone) || is_dict (dict_get d k3 (VDict []))
  | _ => false
  end.

(** A payload with an action that lines 173-182 of [app.py] read
    without an exception: a dictionary whose actions are a list that
    starts with a dictionary, and in which the fields consulted for the
    channel and for the message timestamp are dictionaries. *)
Definition readable (payload : value) : bool :=
  match payload with
  | VDict d =>
      match dict_get d "actions" (VList []) with
      | VList (VDict _ :: _) =>
          consulted_ok d "container" "channel_id" "channel"
          && consulted_ok d "container" "message_ts" "message"
      | _ => false
      end
  | _ => false
  end.

(** A payload with one action in which the container is [null]. *)
Definition sample_payload_null_container (action_id v : string) : value :=
  VDict [("actions",
          VList [VDict [("action_id", VStr action_id);
                        ("value", VStr v)]]);
         ("container", VNone)].

(** The world after the calls [cs] have been answered, in order. *)
Fixpoint replay {W : Type} (respond : call -> W -> result value * W)
    (w : W) (cs : list call) : W :=
  match cs with
  | [] => w
  | c :: cs' => replay respond (snd (respond c w)) cs'
  end.

(** Every one of the calls [cs], made in order from the world [w], is
    answered without an exception. *)
Fixpoint all_answered {W : Type} (respond : call -> W -> result value * W)
    (w : W) (cs : list call) : bool :=
  match cs with
  | [] => true
  | c :: cs' =>
      is_ok (fst (respond c w)) && all_answered respond (snd (respond c w)) cs'
  end.

(** A computation that prints nothing and catches nothing: its events
    are the calls it makes, the world is the one those calls leave, and
    it returns only when every call was answered. *)
Definition calls_through {W A : Type} (respond : call -> W -> result value * W)
    (m : M W A) : Prop :=
  forall w tr, exists cs,
    snd (m (w, tr)) = (replay respond w cs, tr ++ map Called cs) /\
    (is_ok (fst (m (w, tr))) = true -> all_answered respond w cs = true).

(** Four unreconciled transactions of one euro each. *)
Definition sample_transactions : list dict :=
  [[("id", VStr "1"); ("amount", VStr "1.00")];
   [("id", VStr "2"); ("amount", VStr "1.00")];
   [("id", VStr "3"); ("amount", VStr "1.00")];
   [("id", VStr "4"); ("amount", VStr "1.00")]].

(** The request for a verdict on one candidate. *)
Definition verdict_request (info : doc_info) (c : candidate) : event :=
  Called (SuggestPaymentMatch c info).

(** ** Facts about the normaliser *)

Lemma append_line_items_acc (items : list value) :
  forall acc,
    append_line_items items acc =
    (lis <- line_items_of items ;; Ok (acc ++ lis))%result.
Proof.
  induction items as [|item items IH]; intro acc; simpl.
  - now rewrite app_nil_r.
  - destruct (line_item_of item) as [li|e]; simpl; [|reflexivity].
    rewrite IH. destruct (line_items_of items) as [lis|e]; simpl; [|reflexivity].
    now rewrite <- app_assoc.
Qed.

Lemma line_item_of_dict (e : dict) :
  line_item_of (VDict e) = Ok (line_item_value e).
Proof.
  unfold line_item_of, line_item_value, or_else. simpl.
  destruct (truthy (dict_get e "total_amount_incl_tax" VNone)); reflexivity.
Qed.

Lemma line_item_of_Ok (item : value) (li : line_item) :
  line_item_of item = Ok li ->
  exists e, item = VDict e /\ li = line_item_value e.
Proof.
  destruct item; try discriminate.
  rewrite line_item_of_dict. intro H. inversion H. eauto.
Qed.

Lemma line_items_of_Ok (items : list value) :
  forall lis,
    line_items_of items = Ok lis ->
    Forall2 (fun item li => exists e, item = VDict e /\ li = line_item_value e)
            items lis.
Proof.
  induction items as [|item items IH]; simpl; intros lis H.
  - inversion H. constructor.
  - destruct (line_item_of item) as [li|] eqn:Hli; simpl in H; [|discriminate].
    destruct (line_items_of items) as [lis'|] eqn:Hl; simpl in H; [|discriminate].
    inversion H; subst. constructor; auto using line_item_of_Ok.
Qed.

Lemma line_items_of_is_ok (items : list value) :
  is_ok (line_items_of items) = forallb is_dict items.
Proof.
  induction items as [|item items IH]; simpl; [reflexivity|].
  destruct item; simpl; try reflexivity.
  rewrite line_item_of_dict. simpl.
  destruct (line_items_of items); simpl in *; auto.
Qed.

Lemma dict_get_truthy (d : dict) (k : string) (default : value) :
  truthy (dict_get d k VNone) = true ->
  dict_get d k default = dict_get d k VNone.
Proof.
  unfold dict_get. destruct (lookup k d); [reflexivity|discriminate].
Qed.

Lemma contact_name_of_dict (d : dict) :
  contact_ok d = true ->
  contact_name_of (VDict d) = Ok (counterparty_name d).
Proof.
  unfold contact_ok, contact_name_of, counterparty_name, or_else. simpl.
  destruct (truthy (dict_get d "contact" VNone)) eqn:Ht; simpl; intro H.
  - destruct (dict_get d "contact" VNone) as [| | | | | |c]; try discriminate.
    destruct c as [|kv c]; [discriminate|]. simpl.
    now destruct (truthy (dict_get (kv :: c) "company_name" VNone)).
  - assert (Hid : forall r : result value,
               (if truthy (dict_get d "contact_id" VNone)
                then Ok (dict_get d "contact_id" (VStr "")) else r) =
               (if truthy (dict_get d "contact_id" VNone)
                then Ok (dict_get d "contact_id" VNone) else r)).
    { intro r. destruct (truthy (dict_get d "contact_id" VNone)) eqn:Hid;
        [|reflexivity].
      now rewrite (dict_get_truthy d "contact_id" (VStr "") Hid). }
    rewrite Hid.
    destruct (dict_get d "contact" VNone) as [| | | | | |c];
      try (now destruct (truthy (dict_get d "contact_id" VNone))).
    destruct c as [|kv c]; [|discriminate].
    now destruct (truthy (dict_get d "contact_id" VNone)).
Qed.

Lemma contact_name_of_is_ok (d : dict) :
  is_ok (contact_name_of (VDict d)) = contact_ok d.
Proof.
  unfold contact_ok, contact_name_of. simpl.
  destruct (truthy (dict_get d "contact" VNone)) eqn:Ht; simpl.
  - destruct (dict_get d "contact" VNone); simpl; try reflexivity.
    destruct (truthy (dict_get d0 "company_name" VNone)); reflexivity.
  - destruct (truthy (dict_get d "contact_id" VNone)); reflexivity.
Qed.

Lemma amount_of_dict (d : dict) :
  amount_of (VDict d) =
  Ok (or_else (dict_get d "total_amount" VNone)
        (or_else (dict_get d "total_amount_incl_tax" VNone) (VStr "0"))).
Proof.
  unfold amount_of, or_else. simpl.
  destruct (truthy (dict_get d "total_amount" VNone)); reflexivity.
Qed.

Lemma extract_doc_info_dict (d : dict) (doc_type : string) :
  extract_doc_info (VDict d) doc_type =
  (_ <- contact_name_of (VDict d) ;;
   items <- iter (dict_get d "details" (VList [])) ;;
   line_items <- line_items_of items ;;
   Ok (normal_form d doc_type
         match contact_name_of (VDict d) with
         | Ok _ => line_items
         | Raise _ => []
         end))%result.
Proof.
  unfold extract_doc_info. rewrite amount_of_dict.
  destruct (contact_name_of (VDict d)) as [cn|e] eqn:Hcn; simpl; [|reflexivity].
  destruct (iter (dict_get d "details" (VList []))) as [items|e]; simpl;
    [|reflexivity].
  rewrite append_line_items_acc.
  destruct (line_items_of items) as [lis|e]; simpl; [|reflexivity].
  assert (Hok : contact_ok d = true)
    by (rewrite <- contact_name_of_is_ok, Hcn; reflexivity).
  rewrite (contact_name_of_dict d Hok) in Hcn. inversion Hcn; subst.
  unfold normal_form, or_else.
  destruct (truthy (dict_get d "date" VNone));
    destruct (truthy (dict_get d "reference" VNone)); reflexivity.
Qed.

Lemma extract_doc_info_is_ok (d : dict) (doc_type : string) :
  is_ok (extract_doc_info (VDict d) doc_type) = contact_ok d && details_ok d.
Proof.
  rewrite extract_doc_info_dict, <- contact_name_of_is_ok. unfold details_ok.
  destruct (contact_name_of (VDict d)); simpl; [|reflexivity].
  destruct (iter (dict_get d "details" (VList []))) as [items|]; simpl;
    [|reflexivity].
  rewrite <- line_items_of_is_ok. now destruct (line_items_of items).
Qed.

Lemma extract_doc_info_Ok (d : dict) (doc_type : string) (info : doc_info) :
  extract_doc_info (VDict d) doc_type = Ok info ->
  exists items,
    iter (dict_get d "details" (VList [])) = Ok items /\
    line_items_of items = Ok (di_line_items info) /\
    info = normal_form d doc_type (di_line_items info).
Proof.
  rewrite extract_doc_info_dict.
  destruct (contact_name_of (VDict d)); simpl; [|discriminate].
  destruct (iter (dict_get d "details" (VList []))) as [items|]; simpl;
    [|discriminate].
  destruct (line_items_of items) as [lis|] eqn:Hl; simpl; [|discriminate].
  intro H. inversion H; subst; simpl. eauto.
Qed.

Lemma dict_get_absent (d : dict) (k : string) (default : value) :
  lookup k d = None -> dict_get d k default = default.
Proof. unfold dict_get. now intros ->. Qed.

(** The amount the normaliser returns, whatever else the payload holds. *)
Lemma extract_doc_info_amount (d : dict) (doc_type : string) (info : doc_info) :
  extract_doc_info (VDict d) doc_type = Ok info ->
  di_amount info =
  or_else (dict_get d "total_amount" VNone)
    (or_else (dict_get d "total_amount_incl_tax" VNone) (VStr "0")).
Proof.
  intro H. destruct (extract_doc_info_Ok _ _ _ H) as (items & _ & _ & ->).
  reflexivity.
Qed.

(** A payload without any amount field has amount ["0"]. *)
Lemma extract_doc_info_amount_missing (d : dict) (doc_type : string)
    (info : doc_info) :
  extract_doc_info (VDict d) doc_type = Ok info ->
  lookup "total_amount" d = None ->
  lookup "total_amount_incl_tax" d = None ->
  di_amount info = VStr "0".
Proof.
  intros H H1 H2. rewrite (extract_doc_info_amount _ _ _ H).
  now rewrite !dict_get_absent by assumption.
Qed.

(** A line entry that carries both amounts yields the tax-inclusive one:
    the precedence of the entries is the reverse of the document's. *)
Lemma line_item_prefers_tax_inclusive (e : dict) :
  truthy (dict_get e "total_amount_incl_tax" VNone) = true ->
  li_total_amount (line_item_value e) = dict_get e "total_amount_incl_tax" VNone.
Proof. unfold line_item_value, or_else; simpl. now intros ->. Qed.

(** C1, at the input where the code departs from it: a payload carries a
    plain total "100.00" and a tax-inclusive total "121.00"; the
    normalised amount is the plain total, not the tax-inclusive one. *)
Theorem extract_doc_info_amount_takes_plain_total (doc_type : string) :
  exists info,
    extract_doc_info
      (VDict [("total_amount", VStr "100.00");
              ("total_amount_incl_tax", VStr "121.00")]) doc_type = Ok info /\
    di_amount info = VStr "100.00" /\
    di_amount info <> VStr "121.00".
Proof.
  eexists. split; [reflexivity|]. simpl. split; [reflexivity|discriminate].
Qed.

(** C5, as stated, fails: a payload whose contact is a string, and one
    whose details hold a string instead of a dictionary, make the
    normaliser raise. *)
Lemma extract_doc_info_raises_on_odd_types :
  extract_doc_info (VDict [("contact", VStr "ACME")]) "receipt"
    = Raise AttributeError /\
  extract_doc_info (VDict [("details", VList [VStr "coffee"])])
    "purchase_invoice" = Raise AttributeError.
Proof. split; reflexivity. Qed.

(** C5, amended: for every payload dictionary whose contact field is
    absent, falsy or a dictionary, and whose details field is absent or
    iterable with only dictionaries as items, and for every
    document-kind tag, the normaliser (a pure function: it makes no
    call) returns a record, and every absent field is replaced by its
    fallback: no contact and no contact id give the empty name, no
    amount field gives "0", no date field the empty string, no currency
    "EUR", no reference and no sequence identifier the empty
    description, no details the empty list of line items, no
    attachments the empty list. *)
Theorem extract_doc_info_total_on_usable (d : dict) (doc_type : string) :
  contact_ok d = true ->
  details_ok d = true ->
  exists info,
    extract_doc_info (VDict d) doc_type = Ok info /\
    di_type info = doc_type /\
    (lookup "id" d = None -> di_id info = VNone) /\
    (lookup "contact" d = None -> lookup "contact_id" d = None ->
     di_contact info = VStr "") /\
    (lookup "total_amount" d = None ->
     lookup "total_amount_incl_tax" d = None -> di_amount info = VStr "0") /\
    (lookup "date" d = None -> lookup "invoice_date" d = None ->
     di_date info = VStr "") /\
    (lookup "currency" d = None -> di_currency info = VStr "EUR") /\
    (lookup "reference" d = None ->
     lookup "invoice_sequence_identifier" d = None ->
     di_description info = VStr "") /\
    (lookup "details" d = None -> di_line_items info = []) /\
    (lookup "attachments" d = None -> di_attachments info = VList []).
Proof.
  intros Hc Hd.
  destruct (extract_doc_info (VDict d) doc_type) as [info|e] eqn:He.
  2:{ pose proof (extract_doc_info_is_ok d doc_type) as Hok.
      rewrite He, Hc, Hd in Hok. discriminate. }
  exists info. split; [reflexivity|].
  destruct (extract_doc_info_Ok _ _ _ He) as (items & Hi & Hl & Hn).
  rewrite Hn. unfold normal_form, counterparty_name; simpl.
  repeat split; intros; rewrite ?dict_get_absent by assumption;
    try reflexivity.
  rewrite dict_get_absent in Hi by assumption. simpl in Hi.
  inversion Hi; subst items. simpl in Hl. now inversion Hl.
Qed.

Lemma extract_doc_info_total_on_usable_witness :
  exists info,
    extract_doc_info (VDict [("id", VStr "7"); ("contact", VNone)]) "receipt"
      = Ok info /\
    di_amount info = VStr "0" /\ di_currency info = VStr "EUR".
Proof.
  destruct (extract_doc_info_total_on_usable
              [("id", VStr "7"); ("contact", VNone)] "receipt"
              eq_refl eq_refl)
    as (info & He & _ & _ & _ & Ha & _ & Hcur & _).
  exists info. split; [exact He|]. split; [apply Ha|apply Hcur]; reflexivity.
Defined.

(** C6, as stated, fails: the embedded contact has empty organisation
    and given names and the payload carries a contact identifier; the
    normalised name is the empty string, not the identifier. *)
Lemma extract_doc_info_contact_id_not_used :
  exists info,
    extract_doc_info
      (VDict [("contact", VDict [("company_name", VStr "");
                                 ("firstname", VStr "")]);
              ("contact_id", VStr "42")]) "receipt" = Ok info /\
    di_contact info = VStr "" /\
    di_contact info <> VStr "42".
Proof.
  eexists. split; [reflexivity|]. simpl. split; [reflexivity|discriminate].
Qed.

(** C6, amended: whenever the normaliser returns, the counterparty name
    is, for a payload with a non-empty embedded contact, that contact's
    organisation name when non-empty and else its given-name field (the
    empty string when that field is absent), the contact identifier
    playing no part; and for a payload without an embedded contact
    (absent, null or empty), the referenced contact identifier when
    non-empty and else the empty string. *)
Theorem extract_doc_info_contact (d : dict) (doc_type : string)
    (info : doc_info) :
  extract_doc_info (VDict d) doc_type = Ok info ->
  di_contact info = counterparty_name d /\
  (forall c, dict_get d "contact" VNone = VDict c -> c <> [] ->
     di_contact info =
     or_else (dict_get c "company_name" VNone)
             (dict_get c "firstname" (VStr ""))) /\
  (truthy (dict_get d "contact" VNone) = false ->
     di_contact info = or_else (dict_get d "contact_id" VNone) (VStr "")).
Proof.
  intro H. destruct (extract_doc_info_Ok _ _ _ H) as (items & _ & _ & ->).
  simpl. split; [reflexivity|]. unfold counterparty_name. split.
  - intros c -> Hne. destruct c; [contradiction|reflexivity].
  - intro Hf. destruct (dict_get d "contact" VNone) as [| | | | | |c];
      try reflexivity.
    destruct c; [reflexivity|discriminate].
Qed.

Lemma extract_doc_info_contact_witness :
  exists info,
    extract_doc_info
      (VDict [("contact", VDict [("company_name", VStr "");
                                 ("firstname", VStr "Ada")]);
              ("contact_id", VStr "42")]) "receipt" = Ok info /\
    di_contact info = VStr "Ada".
Proof.
  pose (d := [("contact", VDict [("company_name", VStr "");
                                 ("firstname", VStr "Ada")]);
              ("contact_id", VStr "42")]).
  exists (normal_form d "receipt" []). split; [reflexivity|].
  exact (proj1 (extract_doc_info_contact d "receipt"
                  (normal_form d "receipt" []) eq_refl)).
Defined.

(** C9: whenever the normaliser returns, the line items correspond one
    to one, in order, to the entries of the payload's details: both
    sequences have the same length, every entry is a dictionary, and the
    item at each position has that entry's description (the empty string
    when the entry has none) and its tax-inclusive amount when non-empty,
    else its plain amount. *)
Theorem extract_doc_info_line_items (d : dict) (doc_type : string)
    (info : doc_info) :
  extract_doc_info (VDict d) doc_type = Ok info ->
  exists items,
    iter (dict_get d "details" (VList [])) = Ok items /\
    List.length (di_line_items info) = List.length items /\
    forall i item, nth_error items i = Some item ->
      exists e,
        item = VDict e /\
        nth_error (di_line_items info) i = Some (line_item_value e) /\
        (lookup "description" e = None ->
         li_description (line_item_value e) = VStr "") /\
        (truthy (dict_get e "total_amount_incl_tax" VNone) = true ->
         li_total_amount (line_item_value e) =
         dict_get e "total_amount_incl_tax" VNone) /\
        (truthy (dict_get e "total_amount_incl_tax" VNone) = false ->
         li_total_amount (line_item_value e) =
         dict_get e "total_amount" (VStr "")).
Proof.
  intro H. destruct (extract_doc_info_Ok _ _ _ H) as (items & Hi & Hl & _).
  exists items. split; [exact Hi|].
  apply line_items_of_Ok in Hl. clear Hi H.
  split; [symmetry; eapply Forall2_length; eassumption|].
  induction Hl as [|item li items lis (e & -> & ->) _ IH]; intros i it Hn.
  - destruct i; discriminate.
  - destruct i as [|i]; simpl in Hn.
    + inversion Hn; subst. exists e. split; [reflexivity|].
      split; [reflexivity|]. unfold line_item_value, or_else; simpl.
      repeat split.
      * intro Ha. now rewrite dict_get_absent.
      * now intros ->.
      * now intros ->.
    + simpl. now apply IH.
Qed.

Lemma extract_doc_info_line_items_witness :
  exists info,
    extract_doc_info
      (VDict [("details",
               VList [VDict [("total_amount", VStr "5.00")];
                      VDict [("description", VStr "tea");
                             ("total_amount", VStr "2.00");
                             ("total_amount_incl_tax", VStr "2.42")]])])
      "receipt" = Ok info /\
    List.length (di_line_items info) = 2%nat.
Proof.
  pose (d := [("details",
               VList [VDict [("total_amount", VStr "5.00")];
                      VDict [("description", VStr "tea");
                             ("total_amount", VStr "2.00");
                             ("total_amount_incl_tax", VStr "2.42")]])]).
  pose (lis := [line_item_value [("total_amount", VStr "5.00")];
                line_item_value [("description", VStr "tea");
                                 ("total_amount", VStr "2.00");
                                 ("total_amount_incl_tax", VStr "2.42")]]).
  exists (normal_form d "receipt" lis). split; [reflexivity|].
  destruct (extract_doc_info_line_items d "receipt"
              (normal_form d "receipt" lis) eq_refl)
    as (items & Hi & Hlen & _).
  injection Hi as <-. exact Hlen.
Defined.

(** ** Facts about the payment matcher *)

Lemma with_dots_idempotent (s : string) : with_dots (with_dots s) = with_dots s.
Proof.
  unfold with_dots. induction s as [|c s IH]; simpl; [reflexivity|].
  rewrite IH. f_equal.
  destruct (Ascii.eqb c ",") eqn:E; [reflexivity|now rewrite E].
Qed.

Lemma minor_units_with_dots (s : string) :
  minor_units (VStr s) = minor_units (VStr (with_dots s)).
Proof.
  unfold minor_units, replace_comma.
  fold (with_dots s). fold (with_dots (with_dots s)).
  now rewrite with_dots_idempotent.
Qed.

Lemma m_amount_of_not_dict (m : value) :
  is_dict m = false -> m_amount_of m = Ok None.
Proof. destruct m; simpl; try reflexivity; discriminate. Qed.

Lemma within_tolerance_dict (a t : Z) (m : value) :
  within_tolerance a t m = true -> m = VDict (dict_of m).
Proof.
  unfold within_tolerance. destruct m; simpl; try discriminate. reflexivity.
Qed.

Lemma candidate_of_dict (m : dict) :
  contact_ok m = true -> candidate_of (VDict m) = Ok (candidate_value m).
Proof.
  unfold contact_ok, candidate_of, candidate_value, or_else. simpl.
  destruct (truthy (dict_get m "message" VNone)); simpl;
    (destruct (truthy (dict_get m "contact" VNone)) eqn:Ht; simpl; intro H;
     [ destruct (dict_get m "contact" VNone) as [| | | | | |c] eqn:Hc;
         try discriminate;
       destruct c; [discriminate|];
       rewrite (dict_get_truthy m "contact" (VDict [])) by (now rewrite Hc);
       rewrite Hc; reflexivity
     | destruct (dict_get m "contact" VNone) as [| | | | | |c];
         try reflexivity;
       destruct c; [reflexivity|discriminate] ]).
Qed.

Lemma scan_mutations_filter (a t : Z) (mutations : list value) :
  Forall (fun m => tx_ok a t m = true) mutations ->
  forall candidates,
    scan_mutations mutations a t candidates =
    Ok (candidates ++
        map (fun m => candidate_value (dict_of m))
            (filter (within_tolerance a t) mutations)).
Proof.
  induction 1 as [|m ms Hm _ IH]; intro acc; simpl.
  - now rewrite app_nil_r.
  - unfold tx_ok in Hm. apply andb_prop in Hm as [Ha Hc].
    unfold within_tolerance in *.
    destruct (m_amount_of m) as [[n|]|e] eqn:Hn; simpl; try discriminate.
    + destruct (Z.abs (n - a) <=? t); simpl; [|apply IH].
      simpl in Hc.
      assert (Hd : m = VDict (dict_of m)).
      { destruct m; try reflexivity; simpl in Hn; discriminate. }
      rewrite Hd at 1. rewrite (candidate_of_dict _ Hc). simpl.
      rewrite IH, <- app_assoc. reflexivity.
    + apply IH.
Qed.

(** The matcher returns exactly when every transaction can be
    processed. *)
Lemma scan_mutations_is_ok (a t : Z) (mutations : list value) :
  forall candidates,
    is_ok (scan_mutations mutations a t candidates) =
    forallb (tx_ok a t) mutations.
Proof.
  induction mutations as [|m ms IH]; intro acc; simpl; [reflexivity|].
  unfold tx_ok at 1, within_tolerance.
  destruct (m_amount_of m) as [[n|]|e] eqn:Hn; simpl; try reflexivity.
  - destruct (Z.abs (n - a) <=? t); simpl; [|apply IH].
    destruct m as [| | | | | |d]; try (simpl in Hn; discriminate).
    simpl dict_of.
    destruct (contact_ok d) eqn:Hc.
    + rewrite (candidate_of_dict _ Hc). simpl. apply IH.
    + unfold contact_ok in Hc. unfold candidate_of. simpl.
      destruct (truthy (dict_get d "message" VNone)); simpl;
        (destruct (truthy (dict_get d "contact" VNone)) eqn:Ht;
         simpl in Hc; [|discriminate];
         rewrite (dict_get_truthy d "contact" (VDict []) Ht);
         destruct (dict_get d "contact" VNone); simpl in *;
         try reflexivity; discriminate).
  - apply IH.
Qed.

Section MatcherRuns.

Variable W : Type.
Variable respond : call -> W -> result value * W.

(** One run of [find_payment_candidates]: the query is sent once, and
    the loop runs over the transactions made of the answer. *)
Lemma find_payment_candidates_run (a : Z) (hint : value) (t : Z)
    (w : W) (tr : list event) :
  find_payment_candidates W respond a hint t (w, tr) =
  (scan_mutations (mutations_of (fst (respond unreconciled_query w))) a t [],
   (snd (respond unreconciled_query w), tr ++ [Called unreconciled_query])).
Proof.
  unfold find_payment_candidates, get_unreconciled_payments, mbind, catch,
    _get, do_call, lift, ret, unreconciled_query.
  destruct (respond _ w) as [[v|e] w']; simpl; [|reflexivity].
  destruct v; reflexivity.
Qed.

End MatcherRuns.

Lemma minor_units_12_34 :
  minor_units (VStr "12,34") = Ok 1234 /\ minor_units (VStr "12.34") = Ok 1234.
Proof. split; vm_compute; reflexivity. Qed.

Lemma minor_units_101 :
  minor_units (VStr "101.00") = Ok 10100 /\
  minor_units (VStr "101.01") = Ok 10101.
Proof. split; vm_compute; reflexivity. Qed.

Lemma m_amount_of_str (m : dict) (s : string) (n : Z) :
  lookup "amount" m = Some (VStr s) ->
  minor_units (VStr s) = Ok n ->
  m_amount_of (VDict m) = Ok (Some n).
Proof.
  intros Hl Hn. unfold m_amount_of. simpl. unfold dict_get. rewrite Hl.
  now rewrite Hn.
Qed.

(** An amount that is a string [float()] refuses counts as unparsable. *)
Lemma m_amount_of_unparsable (m : dict) (s : string) :
  dict_get m "amount" (VStr "0") = VStr s ->
  float_of_string (with_dots s) = Raise ValueError ->
  m_amount_of (VDict m) = Ok None.
Proof.
  intros Hs Hf. unfold m_amount_of, minor_units. simpl. rewrite Hs. simpl.
  fold (with_dots s). now rewrite Hf.
Qed.

(** An amount that is not a string counts as unparsable. *)
Lemma m_amount_of_not_str (m : dict) :
  (forall s, dict_get m "amount" (VStr "0") <> VStr s) ->
  m_amount_of (VDict m) = Ok None.
Proof.
  intro H. unfold m_amount_of, minor_units. simpl.
  destruct (dict_get m "amount" (VStr "0")) eqn:E; try reflexivity.
  now destruct (H s).
Qed.

Section MatcherClaims.

Variable W : Type.
Variable respond : call -> W -> result value * W.

(** C2: the amount of a transaction parses to the same minor units
    whether its separator is a comma or a dot; "12,34" and "12.34" both
    parse to 1234; and with target 10000 and tolerance 100 a transaction
    of amount "101.00" is a candidate while one of amount "101.01" is
    not. *)
Theorem comma_amounts_and_tolerance :
  (forall s, minor_units (VStr s) = minor_units (VStr (with_dots s))) /\
  (forall s, m_amount_of (VDict [("amount", VStr s)]) =
             m_amount_of (VDict [("amount", VStr (with_dots s))])) /\
  minor_units (VStr "12,34") = Ok 1234 /\
  minor_units (VStr "12.34") = Ok 1234 /\
  (forall hint w tr m,
     fst (respond unreconciled_query w) = Ok (VList [VDict m]) ->
     contact_ok m = true ->
     (lookup "amount" m = Some (VStr "101.00") ->
      fst (find_payment_candidates W respond 10000 hint 100 (w, tr)) =
      Ok [candidate_value m]) /\
     (lookup "amount" m = Some (VStr "101.01") ->
      fst (find_payment_candidates W respond 10000 hint 100 (w, tr)) =
      Ok [])).
Proof.
  split; [exact minor_units_with_dots|].
  split.
  { intro s. unfold m_amount_of.
    change (get (VDict [("amount", VStr s)]) "amount" (VStr "0"))
      with (Ok (VStr s)).
    change (get (VDict [("amount", VStr (with_dots s))]) "amount" (VStr "0"))
      with (Ok (VStr (with_dots s))).
    cbn [bind]. now rewrite <- minor_units_with_dots. }
  split; [apply minor_units_12_34|]. split; [apply minor_units_12_34|].
  intros hint w tr m Hr Hc.
  rewrite find_payment_candidates_run, Hr. simpl mutations_of. simpl fst.
  split; intro Ha.
  - cbn [scan_mutations].
    rewrite (m_amount_of_str m _ _ Ha (proj1 minor_units_101)).
    cbn [bind]. change (Z.abs (10100 - 10000) <=? 100) with true. cbv iota.
    rewrite (candidate_of_dict m Hc). reflexivity.
  - cbn [scan_mutations].
    rewrite (m_amount_of_str m _ _ Ha (proj2 minor_units_101)).
    reflexivity.
Qed.

(** C8: two runs of the matcher that differ only in the
    counterparty-name hint are the same run: same candidates, same
    calls. *)
Theorem find_payment_candidates_ignores_hint (amount_cents tolerance_cents : Z)
    (hint1 hint2 : value) (w : W) (tr : list event) :
  find_payment_candidates W respond amount_cents hint1 tolerance_cents (w, tr) =
  find_payment_candidates W respond amount_cents hint2 tolerance_cents (w, tr).
Proof. reflexivity. Qed.

(** C4, amended: for every target amount, tolerance and hint, and every
    list of unreconciled transactions in which no amount makes the
    conversion raise anything but ValueError or AttributeError (no
    amount is infinite once parsed and multiplied by 100) and the
    contact field of every transaction within tolerance is absent, falsy
    or a dictionary, the matcher returns
    exactly the transactions whose parsed amount lies within the
    tolerance of the target, in the order of the source list, each as a
    candidate record without verdict; a transaction whose amount does
    not parse is left out without an error, and an empty list of
    transactions gives an empty list of candidates. *)
Theorem find_payment_candidates_selects (amount_cents tolerance_cents : Z)
    (hint : value) (w : W) (tr : list event) (mutations : list value) :
  mutations_of (fst (respond unreconciled_query w)) = mutations ->
  Forall (fun m => tx_ok amount_cents tolerance_cents m = true) mutations ->
  fst (find_payment_candidates W respond amount_cents hint tolerance_cents
         (w, tr)) =
  Ok (map (fun m => candidate_value (dict_of m))
        (filter (within_tolerance amount_cents tolerance_cents) mutations)) /\
  (forall c,
     In c (map (fun m => candidate_value (dict_of m))
             (filter (within_tolerance amount_cents tolerance_cents)
                mutations)) ->
     c_verdict c = None) /\
  (forall m, In m mutations -> m_amount_of m = Ok None ->
     ~ In m (filter (within_tolerance amount_cents tolerance_cents)
               mutations)) /\
  (mutations = [] ->
   fst (find_payment_candidates W respond amount_cents hint tolerance_cents
          (w, tr)) = Ok []).
Proof.
  intros Hm Hok. rewrite find_payment_candidates_run, Hm. simpl fst.
  rewrite (scan_mutations_filter _ _ _ Hok). simpl app.
  split; [reflexivity|]. split; [|split].
  - intros c Hc. apply in_map_iff in Hc as (m & <- & _). reflexivity.
  - intros m _ Hn Hin. apply filter_In in Hin as [_ Hin].
    unfold within_tolerance in Hin. rewrite Hn in Hin. discriminate.
  - intros ->. reflexivity.
Qed.

End MatcherClaims.

Lemma comma_amounts_and_tolerance_witness :
  fst (find_payment_candidates unit
         (answering (Ok (VList [VDict [("id", VStr "1");
                                       ("amount", VStr "101.00")]])))
         10000 VNone 100 (tt, [])) =
  Ok [candidate_value [("id", VStr "1"); ("amount", VStr "101.00")]].
Proof.
  refine (proj1 (proj2 (proj2 (proj2 (proj2
            (comma_amounts_and_tolerance unit (answering _)))))
            VNone tt [] [("id", VStr "1"); ("amount", VStr "101.00")]
            eq_refl eq_refl) eq_refl).
Defined.

(** C4, as stated, fails: a transaction within tolerance whose contact
    is a string makes the matcher raise, and so does a transaction whose
    amount is beyond the range of a float. *)
Lemma find_payment_candidates_can_raise :
  fst (find_payment_candidates unit
         (answering (Ok (VList [VDict [("amount", VStr "100.00");
                                       ("contact", VStr "ACME")]])))
         10000 VNone 100 (tt, [])) = Raise AttributeError /\
  fst (find_payment_candidates unit
         (answering (Ok (VList [VDict [("amount", VStr "1e400")]])))
         10000 VNone 100 (tt, [])) = Raise OverflowError.
Proof. split; vm_compute; reflexivity. Qed.

Lemma find_payment_candidates_selects_witness :
  fst (find_payment_candidates unit
         (answering (Ok (VList [VDict [("id", VStr "1");
                                       ("amount", VStr "99,50")];
                                VDict [("id", VStr "2");
                                       ("amount", VStr "abc")];
                                VStr "noise";
                                VDict [("id", VStr "3");
                                       ("amount", VStr "250.00")];
                                VDict [("id", VStr "4");
                                       ("amount", VStr "100.99")]])))
         10000 VNone 100 (tt, [])) =
  Ok [candidate_value [("id", VStr "1"); ("amount", VStr "99,50")];
      candidate_value [("id", VStr "4"); ("amount", VStr "100.99")]].
Proof.
  refine (eq_trans
            (proj1 (find_payment_candidates_selects unit (answering _)
                      10000 100 VNone tt [] _ eq_refl _)) _).
  - repeat constructor.
  - vm_compute. reflexivity.
Defined.

(** ** Facts about [split] *)

Lemma split_max_zero (sep : ascii) (s : string) : split_max sep 0 s = [s].
Proof. destruct s; reflexivity. Qed.

Lemma split_max_nonempty (sep : ascii) (n : nat) (s : string) :
  split_max sep n s <> [].
Proof.
  revert n. induction s as [|c s IH]; intros [|n]; simpl; try discriminate.
  destruct (Ascii.eqb c sep); [discriminate|].
  destruct (split_max sep (S n) s); discriminate.
Qed.



(** No part but the last holds a separator. *)
Lemma split_max_parts_clean (sep : ascii) (s : string) :
  forall n,
    Forall (fun p => count_char sep p = O) (removelast (split_max sep n s)).
Proof.
  induction s as [|c s IH]; intros [|n]; simpl; try constructor.
  destruct (Ascii.eqb c sep) eqn:E.
  - pose proof (split_max_nonempty sep n s) as Hn. specialize (IH n).
    destruct (split_max sep n s) as [|p ps]; [contradiction|].
    constructor; [reflexivity|exact IH].
  - pose proof (split_max_nonempty sep (S n) s) as Hn. specialize (IH (S n)).
    destruct (split_max sep (S n) s) as [|p ps]; [contradiction|].
    destruct ps as [|q ps]; [constructor|].
    cbn [removelast] in *. inversion IH; subst.
    constructor; [simpl; now rewrite E|assumption].
Qed.





(** ** Facts about the callback endpoint and the pipeline *)

Section AppClaims.

Variable W : Type.
Variable respond : call -> W -> result value * W.
Variable SLACK_SIGNING_SECRET : string.
Variable SLACK_CHANNEL_ID : string.
Variable hmac_sha256_hexdigest : string -> string -> string.
Variable json_loads : string -> result value.
Variable format_value : value -> string.

Local Notation "'verify'" :=
  (verify_slack_signature SLACK_SIGNING_SECRET hmac_sha256_hexdigest).
Local Notation "'handle'" :=
  (slack_actions W respond SLACK_SIGNING_SECRET hmac_sha256_hexdigest
     json_loads).

(** A request whose verification returns [False] is answered 403, and
    nothing is called or printed. *)
Lemma slack_actions_rejects (req : request) (now : float) (s : run_state W) :
  verify req now = Ok false ->
  handle req now s = (Ok invalid_signature, s).
Proof.
  intro H. unfold slack_actions, mbind, lift. rewrite H. reflexivity.
Qed.

(** An exception raised by the verification leaves the view; nothing is
    called or printed. *)
Lemma slack_actions_verify_raises (req : request) (now : float)
    (s : run_state W) (e : exn) :
  verify req now = Raise e ->
  handle req now s = (Raise e, s).
Proof.
  intro H. unfold slack_actions, mbind, lift. rewrite H. reflexivity.
Qed.

(** A timestamp more than 300 seconds away from the clock fails the
    verification, whatever the signature. *)
Lemma verify_slack_signature_stale (req : request) (now tf : float) (t : Z) :
  int_of_string (or_default (header_timestamp req) "") = Ok t ->
  float_of_int t = Ok tf ->
  fgt (fabs (fsub now tf)) float_300 = true ->
  verify req now = Ok false.
Proof.
  intros Ht Hf Hs. unfold verify_slack_signature.
  rewrite Ht. simpl. rewrite Hf. simpl. now rewrite Hs.
Qed.

(** A fresh timestamp and an ASCII signature header that differs from
    the recomputed signature fail the verification. *)
Lemma verify_slack_signature_mismatch (req : request) (now tf : float)
    (t : Z) (my_sig : string) :
  int_of_string (or_default (header_timestamp req) "") = Ok t ->
  float_of_int t = Ok tf ->
  fgt (fabs (fsub now tf)) float_300 = false ->
  my_sig =
    ("v0=" ++ hmac_sha256_hexdigest SLACK_SIGNING_SECRET
       ("v0:" ++ or_default (header_timestamp req) "" ++ ":" ++ data req))%string ->
  is_ascii my_sig = true ->
  is_ascii (or_default (header_signature req) "") = true ->
  my_sig <> or_default (header_signature req) "" ->
  verify req now = Ok false.
Proof.
  intros Ht Hf Hs Hm Ha Hb Hne. unfold verify_slack_signature.
  rewrite Ht. cbn [bind]. rewrite Hf. cbn [bind]. rewrite Hs.
  rewrite <- Hm. unfold compare_digest. rewrite Ha, Hb. simpl.
  destruct (String.eqb_spec my_sig (or_default (header_signature req) ""));
    [contradiction|reflexivity].
Qed.

(** A timestamp 301 seconds in the past is rejected with 403 even when
    the signature header is the recomputed signature. *)
Lemma slack_actions_301_seconds_late (body : string) (payload : option string)
    (s : run_state W) :
  let req :=
    {| header_timestamp := Some "1700000000";
       header_signature :=
         Some ("v0=" ++ hmac_sha256_hexdigest SLACK_SIGNING_SECRET
                 ("v0:1700000000:" ++ body))%string;
       data := body;
       form_payload := payload |} in
  handle req (binary_normalize prec emax 1700000301 0 false) s =
  (Ok invalid_signature, s).
Proof.
  intro req. apply slack_actions_rejects.
  apply (verify_slack_signature_stale req _
           (binary_normalize prec emax 1700000000 0 false) 1700000000);
    vm_compute; reflexivity.
Qed.

(** C3, at the inputs where the code departs from it: a request without
    timestamp header, and a request with a fresh timestamp whose
    signature header holds a non-ASCII character, fail the verification
    by an exception that leaves the view (ValueError, TypeError) instead
    of the 403 answer; nothing is called. *)
Theorem slack_actions_raises_on_malformed_headers
    (signature payload : option string) (body : string) (now : float)
    (s : run_state W) :
  handle {| header_timestamp := None;
            header_signature := signature;
            data := body;
            form_payload := payload |} now s = (Raise ValueError, s) /\
  handle {| header_timestamp := Some "1700000000";
            header_signature :=
              Some (String (ascii_of_N 233) EmptyString);
            data := body;
            form_payload := payload |}
         (binary_normalize prec emax 1700000000 0 false) s =
  (Raise TypeError, s).
Proof.
  split; apply slack_actions_verify_raises.
  - reflexivity.
  - unfold verify_slack_signature.
    change (int_of_string
              (or_default
                 (header_timestamp
                    {| header_timestamp := Some "1700000000";
                       header_signature :=
                         Some (String (ascii_of_N 233) EmptyString);
                       data := body;
                       form_payload := payload |}) ""))
      with (Ok 1700000000).
    cbn [bind].
    change (float_of_int 1700000000)
      with (Ok (binary_normalize prec emax 1700000000 0 false)).
    cbn [bind].
    replace (fgt _ float_300) with false by (vm_compute; reflexivity).
    unfold compare_digest. cbn [header_signature or_default].
    now rewrite andb_false_r.
Qed.

(** *** The trace only grows *)

Lemma extends_ret (A : Type) (a : A) : extends (ret W a).
Proof. intros [w tr]. exists []. simpl. now rewrite app_nil_r. Qed.

Lemma extends_raise (A : Type) (e : exn) : extends (@raise W A e).
Proof. intros [w tr]. exists []. simpl. now rewrite app_nil_r. Qed.

Lemma extends_lift (A : Type) (r : result A) : extends (lift W r).
Proof. intros [w tr]. exists []. simpl. now rewrite app_nil_r. Qed.

Lemma extends_do_call (c : call) : extends (do_call W respond c).
Proof.
  intros [w tr]. exists [Called c]. unfold do_call, trace_of.
  now destruct (respond c w).
Qed.

Lemma extends_print_error (where_ : string) (e : exn) :
  extends (print_error W where_ e).
Proof. intros [w tr]. exists [PrintedError where_ e]. reflexivity. Qed.

Lemma extends_mbind (A B : Type) (m : M W A) (k : A -> M W B) :
  extends m -> (forall a, extends (k a)) -> extends (mbind W m k).
Proof.
  intros Hm Hk s. destruct (Hm s) as [tr1 H1]. unfold mbind, trace_of in *.
  destruct (m s) as [[a|e] s1]; simpl in H1.
  - destruct (Hk a s1) as [tr2 H2]. exists (tr1 ++ tr2).
    unfold trace_of in H2. now rewrite H2, H1, app_assoc.
  - exists tr1. exact H1.
Qed.

Lemma extends_catch (A : Type) (m : M W A) (h : exn -> M W A) :
  extends m -> (forall e, extends (h e)) -> extends (catch W m h).
Proof.
  intros Hm Hh s. destruct (Hm s) as [tr1 H1]. unfold catch, trace_of in *.
  destruct (m s) as [[a|e] s1]; simpl in H1.
  - exists tr1. exact H1.
  - destruct (Hh e s1) as [tr2 H2]. exists (tr1 ++ tr2).
    unfold trace_of in H2. now rewrite H2, H1, app_assoc.
Qed.

Lemma starts_with_do_call (c : call) : starts_with c (do_call W respond c).
Proof.
  intros [w tr]. exists []. unfold do_call, trace_of.
  now destruct (respond c w).
Qed.

Lemma starts_with_mbind (A B : Type) (c : call) (m : M W A) (k : A -> M W B) :
  starts_with c m -> (forall a, extends (k a)) -> starts_with c (mbind W m k).
Proof.
  intros Hm Hk s. destruct (Hm s) as [tr1 H1]. unfold mbind, trace_of in *.
  destruct (m s) as [[a|e] s1]; simpl in H1.
  - destruct (Hk a s1) as [tr2 H2]. exists (tr1 ++ tr2).
    unfold trace_of in H2. rewrite H2, H1, <- app_assoc. reflexivity.
  - exists tr1. exact H1.
Qed.

Lemma starts_with_catch (A : Type) (c : call) (m : M W A) (h : exn -> M W A) :
  starts_with c m -> (forall e, extends (h e)) -> starts_with c (catch W m h).
Proof.
  intros Hm Hh s. destruct (Hm s) as [tr1 H1]. unfold catch, trace_of in *.
  destruct (m s) as [[a|e] s1]; simpl in H1.
  - exists tr1. exact H1.
  - destruct (Hh e s1) as [tr2 H2]. exists (tr1 ++ tr2).
    unfold trace_of in H2. rewrite H2, H1, <- app_assoc. reflexivity.
Qed.

Lemma starts_with_lift_ok (A B : Type) (c : call) (a : A) (k : A -> M W B) :
  starts_with c (k a) -> starts_with c (mbind W (lift W (Ok a)) k).
Proof. intros H s. exact (H s). Qed.

Ltac grows :=
  repeat first
    [ match goal with |- forall _, _ => intro end
    | apply extends_mbind
    | apply extends_catch
    | apply extends_ret
    | apply extends_raise
    | apply extends_lift
    | apply extends_do_call
    | apply extends_print_error ].

(** *** The three branches of the view *)

Lemma is_str_eq (x : value) (s : string) : is_str x s = true -> x = VStr s.
Proof.
  destruct x; simpl; try discriminate.
  intro H. apply String.eqb_eq in H. now subst.
Qed.




Lemma book_document_starts (v dt id : string) (ch ts : value) :
  split_max ":" 1 v = [dt; id] ->
  starts_with (HttpGet (document_path dt id) [])
    (book_document W respond (VStr v) ch ts).
Proof.
  intro H. unfold book_document. cbn [split_colon]. rewrite H.
  apply starts_with_lift_ok. unfold document_path.
  apply starts_with_catch; [|grows]. apply starts_with_mbind; [|grows].
  destruct (String.eqb dt "receipt");
    (apply starts_with_mbind; [apply starts_with_do_call|]);
    unfold book_receipt, book_purchase_invoice, _patch; grows.
Qed.

Lemma skip_document_starts (v dt id : string) (ch ts : value) :
  split_max ":" 1 v = [dt; id] ->
  starts_with (HttpGet (document_path dt id) [])
    (skip_document W respond (VStr v) ch ts).
Proof.
  intro H. unfold skip_document. cbn [split_colon]. rewrite H.
  apply starts_with_lift_ok. unfold document_path.
  apply starts_with_catch; [|grows]. apply starts_with_mbind; [|grows].
  destruct (String.eqb dt "receipt"); apply starts_with_do_call.
Qed.


(** A verified request with a decoded payload: the view reads the action
    and dispatches on its identifier. *)
Lemma slack_actions_accepted (req : request) (now : float) (payload : value)
    (s : run_state W) :
  verify req now = Ok true ->
  json_loads (or_default (form_payload req) "{}") = Ok payload ->
  handle req now s =
  match read_action payload with
  | Raise e => (Raise e, s)
  | Ok None => (Ok empty_ok, s)
  | Ok (Some (action_id, value, channel, ts)) =>
      mbind W
        (if is_str action_id "book_document" then
           book_document W respond value channel ts
         else if is_str action_id "skip_document" then
           skip_document W respond value channel ts
         else if is_str action_id "link_payment" then
           link_payment W respond value channel ts
         else ret W tt)
        (fun _ => ret W empty_ok) s
  end.
Proof.
  intros Hv Hp. unfold slack_actions, read_action, mbind at 1 2, lift at 1 2.
  rewrite Hv, Hp. cbn [negb].
  unfold mbind at 1, lift at 1.
  destruct (get payload "actions" (VList [])) as [actions|]; cbn [bind];
    [|reflexivity].
  destruct (negb (truthy actions)); [reflexivity|].
  unfold mbind at 1, lift at 1.
  destruct (item0 actions) as [action|]; cbn [bind]; [|reflexivity].
  unfold mbind at 1, lift at 1.
  destruct (get action "action_id" VNone) as [aid|]; cbn [bind];
    [|reflexivity].
  unfold mbind at 1, lift at 1.
  destruct (get action "value" (VStr "")) as [v|]; cbn [bind]; [|reflexivity].
  unfold mbind at 1, lift at 1.
  destruct (get_either payload "container" "channel_id" "channel" "id")
    as [ch|]; cbn [bind]; [|reflexivity].
  unfold mbind at 1, lift at 1.
  destruct (get_either payload "container" "message_ts" "message" "ts")
    as [ts|]; cbn [bind]; reflexivity.
Qed.

(** The channel or timestamp lookup returns on a dictionary exactly
    when the fields it consults are dictionaries. *)
Lemma get_either_is_ok (d : dict) (k1 k2 k3 k4 : string) :
  is_ok (get_either (VDict d) k1 k2 k3 k4) = consulted_ok d k1 k2 k3.
Proof.
  unfold get_either, consulted_ok, get. cbn [bind].
  destruct (dict_get d k1 (VDict [])) as [| | | | | |c]; try reflexivity.
  cbn [bind].
  destruct (truthy (dict_get c k2 VNone)); [reflexivity|].
  cbn [orb]. destruct (dict_get d k3 (VDict [])); reflexivity.
Qed.

(** Lines 173-182 return an action exactly on the readable payloads;
    on every other payload they return no action or raise. *)
Lemma read_action_readable (payload : value) :
  readable payload = true <->
  exists action_id value channel ts,
    read_action payload = Ok (Some (action_id, value, channel, ts)).
Proof.
  unfold readable, read_action.
  destruct payload as [| | | | | |d]; cbn [get bind];
    try (split; [discriminate|intros (? & ? & ? & ? & H); discriminate H]).
  pose proof (get_either_is_ok d "container" "channel_id" "channel" "id")
    as Hc.
  pose proof (get_either_is_ok d "container" "message_ts" "message" "ts")
    as Ht.
  destruct (dict_get d "actions" (VList [])) as [|b|z|f|s|l|d'].
  1-5, 7: split; [discriminate|intros (? & ? & ? & ? & H); revert H].
  - discriminate.
  - destruct b; discriminate.
  - cbn [truthy]. destruct (negb (z =? 0)); discriminate.
  - cbn [truthy]. destruct f; discriminate.
  - destruct s as [|ch s]; [discriminate|].
    cbn [truthy]. destruct (negb _); discriminate.
  - destruct d'; discriminate.
  - destruct l as [|action rest].
    { split; [discriminate|intros (? & ? & ? & ? & H); discriminate H]. }
    cbn [truthy negb item0 bind].
    destruct action as [| | | | | |a];
      try (split; [discriminate|intros (? & ? & ? & ? & H); discriminate H]).
    cbn [get bind].
    destruct (get_either (VDict d) "container" "channel_id" "channel" "id")
      as [channel|e1]; cbn [is_ok] in Hc; rewrite <- Hc; cbn [bind andb];
      [|split; [discriminate|intros (? & ? & ? & ? & H); discriminate H]].
    destruct (get_either (VDict d) "container" "message_ts" "message" "ts")
      as [ts|e2]; cbn [is_ok] in Ht; rewrite <- Ht; cbn [bind];
      [|split; [discriminate|intros (? & ? & ? & ? & H); discriminate H]].
    split; [intros _; eauto|reflexivity].
Qed.


Local Notation "'run_document'" :=
  (process_document W respond SLACK_CHANNEL_ID format_value).

(** C10: when the receipt fetch raises, whatever the exception, the
    document is fetched again as a typeless document, and when that
    fetch answers, the rest of the pipeline runs on its payload under
    the outer handler; for any other document kind the purchase-invoice
    fetch is the only call: when it raises, the error is printed by the
    outer handler and nothing else happens. *)
Theorem process_document_fetch_fallback (doc_id : string) (e : exn)
    (w w1 : W) (tr : list event) :
  (respond (HttpGet (receipt_path doc_id) []) w = (Raise e, w1) ->
   forall raw w2,
     respond (HttpGet (typeless_path doc_id) []) w1 = (Ok raw, w2) ->
     run_document "receipt" doc_id (w, tr) =
     catch W
       (process_raw W respond SLACK_CHANNEL_ID format_value
          "receipt" doc_id raw)
       (fun e' => print_error W "process_document" e')
       (w2, tr ++ [Called (HttpGet (receipt_path doc_id) []);
                   Called (HttpGet (typeless_path doc_id) [])])) /\
  (forall doc_type,
     String.eqb doc_type "receipt" = false ->
     respond (HttpGet (invoice_path doc_id) []) w = (Raise e, w1) ->
     run_document doc_type doc_id (w, tr) =
     (Ok tt,
      (w1, tr ++ [Called (HttpGet (invoice_path doc_id) []);
                  PrintedError "process_document" e]))).
Proof.
  split.
  - intros H1 raw w2 H2.
    unfold process_document, fetch_raw, catch, mbind, get_receipt,
      get_typeless_document, _get, do_call.
    cbn [String.eqb Ascii.eqb Bool.eqb].
    fold (receipt_path doc_id). fold (typeless_path doc_id).
    rewrite H1, H2. rewrite <- app_assoc. reflexivity.
  - intros doc_type Hd H1.
    unfold process_document, fetch_raw, catch, mbind, get_purchase_invoice,
      _get, do_call, print_error.
    fold (invoice_path doc_id).
    rewrite Hd, H1. rewrite <- app_assoc. reflexivity.
Qed.

End AppClaims.

Lemma process_document_fetch_fallback_witness :
  process_document unit receipts_missing "C1" (fun _ => "") "receipt" "7"
    (tt, []) =
  catch unit
    (process_raw unit receipts_missing "C1" (fun _ => "") "receipt" "7"
       (VDict [("id", VStr "7")]))
    (fun e' => print_error unit "process_document" e')
    (tt, [Called (HttpGet (receipt_path "7") []);
          Called (HttpGet (typeless_path "7") [])]) /\
  process_document unit (answering (Raise HTTPError)) "C1" (fun _ => "")
    "purchase_invoice" "7" (tt, []) =
  (Ok tt, (tt, [Called (HttpGet (invoice_path "7") []);
                PrintedError "process_document" HTTPError])).
Proof.
  split.
  - exact (proj1 (process_document_fetch_fallback unit receipts_missing
                    "C1" (fun _ => "") "7" HTTPError tt tt [])
             eq_refl (VDict [("id", VStr "7")]) tt eq_refl).
  - exact (proj2 (process_document_fetch_fallback unit
                    (answering (Raise HTTPError))
                    "C1" (fun _ => "") "7" HTTPError tt tt [])
             "purchase_invoice" eq_refl eq_refl).
Defined.



(** ** Further facts about the callback endpoint *)

Section CallbackFacts.

Variable W : Type.
Variable respond : call -> W -> result value * W.
Variable SLACK_SIGNING_SECRET : string.
Variable hmac_sha256_hexdigest : string -> string -> string.
Variable json_loads : string -> result value.

Local Notation "'verify'" :=
  (verify_slack_signature SLACK_SIGNING_SECRET hmac_sha256_hexdigest).
Local Notation "'handle'" :=
  (slack_actions W respond SLACK_SIGNING_SECRET hmac_sha256_hexdigest
     json_loads).

(** Unless the verification returns [True], the view touches nothing:
    the world and the trace are as before, and the outcome is the 403
    answer or the exception of the verification. *)
Theorem slack_actions_unverified_no_effect (req : request) (now : float)
    (s : run_state W) :
  verify req now <> Ok true ->
  snd (handle req now s) = s /\
  (fst (handle req now s) = Ok invalid_signature \/
   exists e, verify req now = Raise e /\ fst (handle req now s) = Raise e).
Proof.
  intro H. unfold slack_actions, mbind, lift.
  destruct (verify req now) as [[|]|e]; simpl.
  - now contradiction H.
  - split; [reflexivity|now left].
  - split; [reflexivity|right; eauto].
Qed.

(** The verification returns [True] exactly when the timestamp header is
    an integer literal that converts to a float no more than 300 away
    from the clock, the recomputed signature is ASCII, and the signature
    header is present and equal to it. *)
Theorem verify_slack_signature_true_iff (req : request) (now : float) :
  verify req now = Ok true <->
  exists t tf,
    int_of_string (or_default (header_timestamp req) "") = Ok t /\
    float_of_int t = Ok tf /\
    fgt (fabs (fsub now tf)) float_300 = false /\
    is_ascii (expected_signature SLACK_SIGNING_SECRET
                hmac_sha256_hexdigest req) = true /\
    header_signature req =
      Some (expected_signature SLACK_SIGNING_SECRET
              hmac_sha256_hexdigest req).
Proof.
  unfold verify_slack_signature.
  fold (expected_signature SLACK_SIGNING_SECRET hmac_sha256_hexdigest req).
  set (sig := expected_signature SLACK_SIGNING_SECRET
                hmac_sha256_hexdigest req).
  assert (Hne : sig <> ""%string) by (unfold sig; discriminate).
  clearbody sig. split.
  - destruct (int_of_string _) as [t|] eqn:Ht; cbn [bind]; [|discriminate].
    destruct (float_of_int t) as [tf|] eqn:Hf; cbn [bind]; [|discriminate].
    destruct (fgt _ float_300) eqn:Hs; [discriminate|].
    unfold compare_digest.
    destruct (is_ascii sig) eqn:Ha; cbn [andb]; [|discriminate].
    destruct (is_ascii (or_default (header_signature req) ""));
      [|discriminate].
    intro H. injection H as H. apply String.eqb_eq in H.
    exists t, tf. repeat split; try assumption.
    destruct (header_signature req) as [h|]; simpl in H.
    + now subst.
    + now contradiction Hne.
  - intros (t & tf & Ht & Hf & Hs & Ha & Hh).
    rewrite Ht. cbn [bind]. rewrite Hf. cbn [bind]. rewrite Hs.
    unfold compare_digest. rewrite Hh. cbn [or_default].
    rewrite Ha. cbn [andb]. now rewrite String.eqb_refl.
Qed.

(** *** Events of one kind *)

Lemma adds_ret (P : event -> bool) (A : Type) (a : A) : adds P (ret W a).
Proof. intros [w tr]. exists []. split; [simpl; now rewrite app_nil_r|reflexivity]. Qed.

Lemma adds_raise (P : event -> bool) (A : Type) (e : exn) :
  adds P (@raise W A e).
Proof. intros [w tr]. exists []. split; [simpl; now rewrite app_nil_r|reflexivity]. Qed.

Lemma adds_lift (P : event -> bool) (A : Type) (r : result A) :
  adds P (lift W r).
Proof. intros [w tr]. exists []. split; [simpl; now rewrite app_nil_r|reflexivity]. Qed.

Lemma adds_do_call (P : event -> bool) (c : call) :
  P (Called c) = true -> adds P (do_call W respond c).
Proof.
  intros H [w tr]. exists [Called c]. unfold do_call, trace_of.
  destruct (respond c w). simpl. now rewrite H.
Qed.

Lemma adds_print_error (P : event -> bool) (where_ : string) (e : exn) :
  P (PrintedError where_ e) = true -> adds P (print_error W where_ e).
Proof.
  intros H [w tr]. exists [PrintedError where_ e]. simpl. now rewrite H.
Qed.

Lemma adds_mbind (P : event -> bool) (A B : Type) (m : M W A)
    (k : A -> M W B) :
  adds P m -> (forall a, adds P (k a)) -> adds P (mbind W m k).
Proof.
  intros Hm Hk s. destruct (Hm s) as (ev1 & H1 & P1).
  unfold mbind, trace_of in *.
  destruct (m s) as [[a|e] s1]; simpl in H1.
  - destruct (Hk a s1) as (ev2 & H2 & P2). exists (ev1 ++ ev2).
    unfold trace_of in H2. rewrite H2, H1, app_assoc, forallb_app, P1, P2.
    now split.
  - exists ev1. now split.
Qed.

Lemma adds_catch (P : event -> bool) (A : Type) (m : M W A)
    (h : exn -> M W A) :
  adds P m -> (forall e, adds P (h e)) -> adds P (catch W m h).
Proof.
  intros Hm Hh s. destruct (Hm s) as (ev1 & H1 & P1).
  unfold catch, trace_of in *.
  destruct (m s) as [[a|e] s1]; simpl in H1.
  - exists ev1. now split.
  - destruct (Hh e s1) as (ev2 & H2 & P2). exists (ev1 ++ ev2).
    unfold trace_of in H2. rewrite H2, H1, app_assoc, forallb_app, P1, P2.
    now split.
Qed.

Ltac only_adds :=
  repeat first
    [ match goal with |- forall _, _ => intro end
    | apply adds_mbind
    | apply adds_catch
    | apply adds_ret
    | apply adds_raise
    | apply adds_lift
    | apply adds_do_call; reflexivity
    | apply adds_print_error; reflexivity
    | match goal with |- adds _ (if ?b then _ else _) => destruct b end
    | match goal with
      | |- adds _ (match ?x with _ => _ end) => destruct x
      end ].

(** The skip action never writes to the accounting platform: whatever
    its value and whatever the platform answers, none of the events it
    adds is a PATCH request. *)
Theorem skip_document_never_patches (value channel ts : value) :
  adds (fun ev => negb (is_patch ev))
       (skip_document W respond value channel ts).
Proof.
  unfold skip_document, get_receipt, get_purchase_invoice, _get. only_adds.
Qed.

(** *** Failures after the dispatch *)

(** *** Calls, and the world they leave *)

Lemma replay_app (cs1 cs2 : list call) :
  forall w,
    replay respond w (cs1 ++ cs2) = replay respond (replay respond w cs1) cs2.
Proof. induction cs1 as [|c cs1 IH]; intro w; simpl; [reflexivity|apply IH]. Qed.

Lemma all_answered_app (cs1 cs2 : list call) :
  forall w,
    all_answered respond w (cs1 ++ cs2) =
    all_answered respond w cs1
    && all_answered respond (replay respond w cs1) cs2.
Proof.
  induction cs1 as [|c cs1 IH]; intro w; simpl; [reflexivity|].
  now rewrite IH, andb_assoc.
Qed.

Lemma calls_through_ret (A : Type) (a : A) : calls_through respond (ret W a).
Proof.
  intros w tr. exists []. simpl. rewrite app_nil_r. now split.
Qed.

Lemma calls_through_lift (A : Type) (r : result A) :
  calls_through respond (lift W r).
Proof.
  intros w tr. exists []. simpl. rewrite app_nil_r. now split.
Qed.

Lemma calls_through_do_call (c : call) :
  calls_through respond (do_call W respond c).
Proof.
  intros w tr. exists [c]. unfold do_call. simpl.
  destruct (respond c w) as [r w1]. simpl. split; [reflexivity|].
  intro H. now rewrite H.
Qed.

Lemma calls_through_mbind (A B : Type) (m : M W A) (k : A -> M W B) :
  calls_through respond m -> (forall a, calls_through respond (k a)) ->
  calls_through respond (mbind W m k).
Proof.
  intros Hm Hk w tr. destruct (Hm w tr) as (cs1 & H1 & A1).
  unfold mbind. destruct (m (w, tr)) as [[a|e] s1]; simpl in H1, A1.
  - subst s1. destruct (Hk a (replay respond w cs1) (tr ++ map Called cs1))
      as (cs2 & H2 & A2).
    exists (cs1 ++ cs2). rewrite H2, replay_app, all_answered_app, map_app,
      app_assoc.
    split; [reflexivity|]. intro H. now rewrite A1, A2.
  - exists cs1. split; [assumption|discriminate].
Qed.

Ltac through :=
  repeat first
    [ match goal with |- forall _, _ => intro end
    | apply calls_through_mbind
    | apply calls_through_ret
    | apply calls_through_lift
    | apply calls_through_do_call
    | match goal with
      | |- calls_through _ (if ?b then _ else _) => destruct b
      end ].

(** A body that only calls, under a handler that prints: the run
    returns; an error is printed, after the calls, exactly when the body
    raised, and the body raised whenever one of its calls did. *)
Lemma catch_print_run (m : M W unit) (where_ : string) :
  calls_through respond m ->
  forall w tr, exists cs err,
    catch W m (fun e => print_error W where_ e) (w, tr) =
    (Ok tt, (replay respond w cs, tr ++ map Called cs ++ err)) /\
    (err = [] \/ exists e, err = [PrintedError where_ e]) /\
    (all_answered respond w cs = false ->
     exists e, err = [PrintedError where_ e]).
Proof.
  intros Hm w tr. destruct (Hm w tr) as (cs & H1 & A1).
  unfold catch. destruct (m (w, tr)) as [[[]|e] s1]; simpl in H1, A1; subst s1.
  - exists cs, []. rewrite app_nil_r. split; [reflexivity|].
    split; [now left|]. intro H. rewrite A1 in H; [discriminate|reflexivity].
  - exists cs, [PrintedError where_ e]. unfold print_error.
    rewrite app_assoc. split; [reflexivity|]. split; eauto.
Qed.

Lemma no_call_run (where_ : string) (w : W) (tr : list event) :
  exists cs err,
    (Ok tt, (w, tr)) =
    (Ok tt, (replay respond w cs, tr ++ map Called cs ++ err)) /\
    (err = [] \/ exists e, err = [PrintedError where_ e]) /\
    (all_answered respond w cs = false ->
     exists e, err = [PrintedError where_ e]).
Proof.
  exists [], []. simpl. rewrite app_nil_r. split; [reflexivity|].
  split; [now left|discriminate].
Qed.

Lemma book_document_run (v : string) (ch ts : value) (w : W)
    (tr : list event) :
  exists cs err,
    book_document W respond (VStr v) ch ts (w, tr) =
    (Ok tt, (replay respond w cs, tr ++ map Called cs ++ err)) /\
    (err = [] \/ exists e, err = [PrintedError "book_document" e]) /\
    (all_answered respond w cs = false ->
     exists e, err = [PrintedError "book_document" e]).
Proof.
  unfold book_document. cbn [split_colon]. unfold mbind at 1, lift at 1.
  destruct (split_max ":" 1 v) as [|a [|b [|c l]]];
    try apply no_call_run.
  apply catch_print_run.
  unfold get_receipt, get_purchase_invoice, book_receipt,
    book_purchase_invoice, _get, _patch.
  through.
Qed.

Lemma skip_document_run (v : string) (ch ts : value) (w : W)
    (tr : list event) :
  exists cs err,
    skip_document W respond (VStr v) ch ts (w, tr) =
    (Ok tt, (replay respond w cs, tr ++ map Called cs ++ err)) /\
    (err = [] \/ exists e, err = [PrintedError "skip_document" e]) /\
    (all_answered respond w cs = false ->
     exists e, err = [PrintedError "skip_document" e]).
Proof.
  unfold skip_document. cbn [split_colon]. unfold mbind at 1, lift at 1.
  destruct (split_max ":" 1 v) as [|a [|b [|c l]]];
    try apply no_call_run.
  apply catch_print_run.
  unfold get_receipt, get_purchase_invoice, _get.
  through.
Qed.

Lemma link_payment_run (v : string) (ch ts : value) (w : W)
    (tr : list event) :
  exists cs err,
    link_payment W respond (VStr v) ch ts (w, tr) =
    (Ok tt, (replay respond w cs, tr ++ map Called cs ++ err)) /\
    (err = [] \/ exists e, err = [PrintedError "link_payment" e]) /\
    (all_answered respond w cs = false ->
     exists e, err = [PrintedError "link_payment" e]).
Proof.
  unfold link_payment. cbn [split_colon]. unfold mbind at 1, lift at 1.
  destruct (split_max ":" 2 v) as [|a [|b [|c [|x l]]]];
    try apply no_call_run.
  apply catch_print_run.
  unfold get_receipt, get_purchase_invoice, link_payment_to_receipt,
    link_payment_to_purchase_invoice, _get, _patch.
  through.
Qed.

(** Once a verified request has been read and its action carries a
    string value, the answer is 200 with an empty body whatever the
    accounting platform and the chat platform do, and every failure of a
    downstream call is printed instead of reaching the caller: the
    events of the run are the calls it made, followed by at most one
    printed error, which names the action; the error is there whenever
    one of the calls was answered by an exception. *)
Theorem slack_actions_hides_downstream_failures (req : request) (now : float)
    (payload action_id channel ts : value) (v : string)
    (w : W) (tr : list event) :
  verify req now = Ok true ->
  json_loads (or_default (form_payload req) "{}") = Ok payload ->
  read_action payload = Ok (Some (action_id, VStr v, channel, ts)) ->
  exists cs err,
    handle req now (w, tr) =
    (Ok empty_ok, (replay respond w cs, tr ++ map Called cs ++ err)) /\
    (err = [] \/
     exists name e, action_id = VStr name /\ err = [PrintedError name e]) /\
    (all_answered respond w cs = false ->
     exists name e, action_id = VStr name /\ err = [PrintedError name e]).
Proof.
  intros Hv Hp Ha.
  rewrite (slack_actions_accepted W respond _ _ _ req now payload (w, tr)
             Hv Hp), Ha.
  unfold mbind.
  destruct (is_str action_id "book_document") eqn:Hb.
  { apply is_str_eq in Hb. subst action_id.
    destruct (book_document_run v channel ts w tr)
      as (cs & err & -> & [->|[e ->]] & Hf); exists cs; eexists;
      (split; [reflexivity|]); split; eauto.
    intro H. destruct (Hf H) as [e' He]. exists "book_document"%string, e'.
    now split. }
  destruct (is_str action_id "skip_document") eqn:Hk.
  { apply is_str_eq in Hk. subst action_id.
    destruct (skip_document_run v channel ts w tr)
      as (cs & err & -> & [->|[e ->]] & Hf); exists cs; eexists;
      (split; [reflexivity|]); split; eauto.
    intro H. destruct (Hf H) as [e' He]. exists "skip_document"%string, e'.
    now split. }
  destruct (is_str action_id "link_payment") eqn:Hl.
  { apply is_str_eq in Hl. subst action_id.
    destruct (link_payment_run v channel ts w tr)
      as (cs & err & -> & [->|[e ->]] & Hf); exists cs; eexists;
      (split; [reflexivity|]); split; eauto.
    intro H. destruct (Hf H) as [e' He]. exists "link_payment"%string, e'.
    now split. }
  exists [], []. simpl. rewrite app_nil_r. split; [reflexivity|].
  split; [now left|discriminate].
Qed.

(** What a verified request does before any action is dispatched.  A
    payload that is a dictionary without actions is acknowledged with
    200 and an empty body.  A payload whose action, channel and
    timestamp are read without an exception, and whose action is none of
    the three known ones, is acknowledged in the same way.  When that
    reading raises -- the payload or its first action is not a
    dictionary, or a field consulted for the channel or the timestamp is
    not a dictionary -- the exception leaves the view.  In each case
    nothing is called or printed; and a payload that is not readable
    falls under the first or the third case. *)
Theorem slack_actions_unknown_action_ignored (req : request) (now : float)
    (payload : value) (s : run_state W) :
  verify req now = Ok true ->
  json_loads (or_default (form_payload req) "{}") = Ok payload ->
  (forall d,
     payload = VDict d ->
     truthy (dict_get d "actions" (VList [])) = false ->
     handle req now s = (Ok empty_ok, s)) /\
  (forall action_id value channel ts,
     read_action payload = Ok (Some (action_id, value, channel, ts)) ->
     is_str action_id "book_document" = false ->
     is_str action_id "skip_document" = false ->
     is_str action_id "link_payment" = false ->
     handle req now s = (Ok empty_ok, s)) /\
  (forall e,
     read_action payload = Raise e ->
     handle req now s = (Raise e, s)) /\
  (readable payload = false ->
   handle req now s = (Ok empty_ok, s) \/
   exists e, handle req now s = (Raise e, s)).
Proof.
  intros Hv Hp.
  rewrite (slack_actions_accepted W respond _ _ _ req now payload s Hv Hp).
  split; [|split; [|split]].
  - intros d -> Hd. unfold read_action. cbn [get bind]. now rewrite Hd.
  - intros aid v ch ts -> Hb Hk Hl. now rewrite Hb, Hk, Hl.
  - now intros e ->.
  - intro Hr. destruct (read_action payload) as [[[[[aid v] ch] ts]|]|e] eqn:Ha.
    + assert (readable payload = true) as Ht
        by (apply read_action_readable; eauto).
      congruence.
    + now left.
    + right. eauto.
Qed.

(** A booking that fails leaves the chat message alone: when the fetch
    of the document raises, or the fetched payload cannot be normalised,
    no PATCH is sent; when the PATCH raises, the message is not updated;
    in each case the error is printed and the action returns. *)
Theorem book_document_failures (v doc_type doc_id : string)
    (channel ts : value) (w : W) (tr : list event) :
  split_max ":" 1 v = [doc_type; doc_id] ->
  (forall e w1,
     respond (HttpGet (document_path doc_type doc_id) []) w = (Raise e, w1) ->
     book_document W respond (VStr v) channel ts (w, tr) =
     (Ok tt, (w1, tr ++ [Called (HttpGet (document_path doc_type doc_id) []);
                         PrintedError "book_document" e]))) /\
  (forall raw e w1,
     respond (HttpGet (document_path doc_type doc_id) []) w = (Ok raw, w1) ->
     extract_doc_info raw doc_type = Raise e ->
     book_document W respond (VStr v) channel ts (w, tr) =
     (Ok tt, (w1, tr ++ [Called (HttpGet (document_path doc_type doc_id) []);
                         PrintedError "book_document" e]))) /\
  (forall raw info e w1 w2,
     respond (HttpGet (document_path doc_type doc_id) []) w = (Ok raw, w1) ->
     extract_doc_info raw doc_type = Ok info ->
     respond (HttpPatch (document_path doc_type doc_id)
                (booked_payload doc_type)) w1 = (Raise e, w2) ->
     book_document W respond (VStr v) channel ts (w, tr) =
     (Ok tt, (w2, tr ++ [Called (HttpGet (document_path doc_type doc_id) []);
                         Called (HttpPatch (document_path doc_type doc_id)
                                   (booked_payload doc_type));
                         PrintedError "book_document" e]))).
Proof.
  intro Hs. unfold document_path, booked_payload.
  repeat split; intros;
    unfold book_document; cbn [split_colon]; rewrite Hs;
    unfold mbind, lift, catch, get_receipt, get_purchase_invoice, _get,
      book_receipt, book_purchase_invoice, _patch, do_call, print_error,
      receipt_path, invoice_path in *;
    destruct (String.eqb doc_type "receipt");
    repeat match goal with
           | H : respond _ _ = _ |- _ => rewrite H
           | H : extract_doc_info _ _ = _ |- _ => rewrite H
           end;
    cbn; rewrite <- ?app_assoc; reflexivity.
Qed.

End CallbackFacts.

(** ** Further facts about the normaliser *)

Lemma contact_name_of_raises (raw : value) (e : exn) :
  contact_name_of raw = Raise e -> e = AttributeError.
Proof.
  unfold contact_name_of. destruct raw; simpl; try congruence.
  destruct (truthy (dict_get d "contact" VNone)); simpl.
  - destruct (dict_get d "contact" VNone); simpl; try congruence.
    destruct (truthy (dict_get d0 "company_name" VNone)); congruence.
  - destruct (truthy (dict_get d "contact_id" VNone)); congruence.
Qed.

Lemma line_items_of_raises (items : list value) (e : exn) :
  line_items_of items = Raise e -> e = AttributeError.
Proof.
  induction items as [|item items IH]; simpl; [discriminate|].
  destruct item; simpl; try congruence.
  rewrite line_item_of_dict. simpl.
  destruct (line_items_of items); simpl; [discriminate|].
  intro H. apply IH. congruence.
Qed.

Lemma truthy_or_else (x y : value) :
  truthy y = true -> truthy (or_else x y) = true.
Proof. unfold or_else. now destruct (truthy x) eqn:E. Qed.

(** The normaliser raises exactly on the payloads that are not
    dictionaries, whose contact is truthy without being a dictionary, or
    whose details cannot be iterated or hold an entry that is not a
    dictionary; the exception is TypeError when the details cannot be
    iterated (and the contact is usable), AttributeError otherwise. *)
Theorem extract_doc_info_raises (d : dict) (doc_type : string) :
  match extract_doc_info (VDict d) doc_type with
  | Ok _ => contact_ok d = true /\ details_ok d = true
  | Raise e => contact_ok d && details_ok d = false /\ e = extract_error d
  end /\
  forall raw, is_dict raw = false ->
              extract_doc_info raw doc_type = Raise AttributeError.
Proof.
  split.
  - pose proof (extract_doc_info_is_ok d doc_type) as Hok.
    destruct (extract_doc_info (VDict d) doc_type) as [info|e] eqn:He;
      simpl in Hok.
    + symmetry in Hok. now apply andb_prop in Hok.
    + split; [now symmetry|].
      rewrite extract_doc_info_dict in He. unfold extract_error.
      rewrite <- contact_name_of_is_ok.
      destruct (contact_name_of (VDict d)) as [cn|e1] eqn:Hc; simpl in *.
      * destruct (iter (dict_get d "details" (VList []))) as [items|e2] eqn:Hi;
          simpl in *.
        -- destruct (line_items_of items) eqn:Hl; simpl in He; [discriminate|].
           injection He as <-. now apply line_items_of_raises in Hl.
        -- injection He as <-.
           destruct (dict_get d "details" (VList [])); simpl in Hi; congruence.
      * injection He as <-. now apply contact_name_of_raises in Hc.
  - intros raw H. destruct raw; try reflexivity; discriminate.
Qed.

(** Every record the normaliser returns has a non-empty amount and a
    non-empty currency, carries the document kind it was given, and
    comes from a payload that is a dictionary. *)
Theorem extract_doc_info_never_empty (raw : value) (doc_type : string)
    (info : doc_info) :
  extract_doc_info raw doc_type = Ok info ->
  truthy (di_amount info) = true /\
  truthy (di_currency info) = true /\
  di_type info = doc_type /\
  is_dict raw = true.
Proof.
  intro H. destruct raw as [| | | | | |d]; try discriminate.
  destruct (extract_doc_info_Ok _ _ _ H) as (items & _ & _ & ->).
  simpl. repeat split; repeat apply truthy_or_else; reflexivity.
Qed.

Lemma extract_doc_info_never_empty_witness :
  truthy (di_amount (normal_form [("total_amount", VStr "")] "receipt" []))
    = true.
Proof.
  exact (proj1 (extract_doc_info_never_empty
                  (VDict [("total_amount", VStr "")]) "receipt"
                  (normal_form [("total_amount", VStr "")] "receipt" [])
                  eq_refl)).
Defined.

(** ** Further facts about amounts and the matcher *)

Lemma float_of_string_raises (s : string) (e : exn) :
  float_of_string s = Raise e -> e = ValueError.
Proof.
  unfold float_of_string.
  destruct (underscores_ok None _); [|congruence].
  destruct (take_sign _) as [neg body].
  destruct (String.eqb _ "inf" || String.eqb _ "infinity"); [discriminate|].
  destruct (String.eqb _ "nan"); [discriminate|].
  unfold parse_decimal.
  destruct (span_digits body) as [ip l1].
  destruct (match l1 with
            | "."%char :: r => span_digits r
            | _ => ([], l1)
            end) as [fp l2].
  destruct (ip ++ fp); [congruence|].
  destruct (parse_exponent l2); congruence.
Qed.

Lemma int_of_float_raises (x : float) (e : exn) :
  int_of_float x = Raise e -> e = OverflowError \/ e = ValueError.
Proof. destruct x; simpl; intro H; inversion H; auto. Qed.

Lemma minor_units_raises (x : value) (e : exn) :
  minor_units x = Raise e ->
  e = AttributeError \/ e = ValueError \/ e = OverflowError.
Proof.
  unfold minor_units.
  destruct (replace_comma x) as [s|e1] eqn:Hr; cbn [bind].
  - destruct (float_of_string s) as [f|e2] eqn:Hf; cbn [bind].
    + intro H. apply int_of_float_raises in H. tauto.
    + intro H. injection H as <-. apply float_of_string_raises in Hf. auto.
  - intro H. injection H as <-. destruct x; simpl in Hr; try discriminate;
      injection Hr as <-; auto.
Qed.

Lemma m_amount_of_raises (m : value) (e : exn) :
  m_amount_of m = Raise e -> e = OverflowError.
Proof.
  unfold m_amount_of.
  destruct (bind (get m "amount" (VStr "0")) minor_units) as [n|e1] eqn:Hb;
    [discriminate|].
  assert (He : e1 = AttributeError \/ e1 = ValueError \/ e1 = OverflowError).
  { destruct m; simpl in Hb; try (injection Hb as <-; auto).
    now apply minor_units_raises in Hb. }
  destruct He as [-> | [-> | ->]]; simpl; congruence.
Qed.

Lemma candidate_of_raises (m : value) (e : exn) :
  candidate_of m = Raise e -> e = AttributeError.
Proof.
  unfold candidate_of. destruct m; simpl; try congruence.
  destruct (truthy (dict_get d "message" VNone)); simpl;
    (destruct (truthy (dict_get d "contact" VNone)); simpl; [|congruence];
     destruct (dict_get d "contact" (VDict [])); simpl; congruence).
Qed.

Lemma scan_mutations_raises (a t : Z) (mutations : list value) :
  forall candidates e,
    scan_mutations mutations a t candidates = Raise e ->
    e = OverflowError \/ e = AttributeError.
Proof.
  induction mutations as [|m ms IH]; intros acc e; simpl; [discriminate|].
  destruct (m_amount_of m) as [[n|]|e1] eqn:Hn; simpl.
  - destruct (Z.abs (n - a) <=? t); [|apply IH].
    destruct (candidate_of m) as [c|e2] eqn:Hc; simpl; [apply IH|].
    intro H. injection H as <-. right. now apply candidate_of_raises in Hc.
  - apply IH.
  - intro H. injection H as <-. left. now apply m_amount_of_raises in Hn.
Qed.

Section PipelineFacts.

Variable W : Type.
Variable respond : call -> W -> result value * W.
Variable SLACK_CHANNEL_ID : string.
Variable format_value : value -> string.

(** When the query for unreconciled transactions fails, or its answer
    is not a list, or the list is empty, the matcher returns no
    candidate and raises nothing; the query is the only call it makes. *)
Theorem find_payment_candidates_without_transactions (amount_cents : Z)
    (hint : value) (tolerance_cents : Z) (w : W) (tr : list event) :
  mutations_of (fst (respond unreconciled_query w)) = [] ->
  find_payment_candidates W respond amount_cents hint tolerance_cents (w, tr) =
  (Ok [], (snd (respond unreconciled_query w),
           tr ++ [Called unreconciled_query])).
Proof. intro H. now rewrite find_payment_candidates_run, H. Qed.

(** The matcher returns exactly when every transaction of the answer can
    be processed, it never makes another call than the query, and the
    only exceptions that can leave it are OverflowError (an amount
    beyond the float range) and AttributeError (an odd contact). *)
Theorem find_payment_candidates_errors (amount_cents : Z) (hint : value)
    (tolerance_cents : Z) (w : W) (tr : list event) :
  is_ok (fst (find_payment_candidates W respond amount_cents hint
                tolerance_cents (w, tr))) =
  forallb (tx_ok amount_cents tolerance_cents)
    (mutations_of (fst (respond unreconciled_query w))) /\
  trace_of (find_payment_candidates W respond amount_cents hint
              tolerance_cents (w, tr)) = tr ++ [Called unreconciled_query] /\
  forall e,
    fst (find_payment_candidates W respond amount_cents hint
           tolerance_cents (w, tr)) = Raise e ->
    e = OverflowError \/ e = AttributeError.
Proof.
  rewrite find_payment_candidates_run. simpl fst.
  split; [apply scan_mutations_is_ok|]. split; [reflexivity|].
  intro e. apply scan_mutations_raises.
Qed.

(** The target amount of the pipeline: a document amount that is not a
    string, or that [float()] refuses, counts as 0; the only exception
    that can leave is OverflowError, and nothing is called. *)
Theorem amount_cents_of_fallback (info : doc_info) (s : run_state W) :
  ((forall a, di_amount info <> VStr a) ->
   amount_cents_of W info s = (Ok 0, s)) /\
  (forall a, di_amount info = VStr a ->
             float_of_string (with_dots a) = Raise ValueError ->
             amount_cents_of W info s = (Ok 0, s)) /\
  (forall e s', amount_cents_of W info s = (Raise e, s') ->
                e = OverflowError /\ s' = s).
Proof.
  unfold amount_cents_of. split; [|split].
  - intro H. unfold minor_units.
    destruct (di_amount info) eqn:E; try reflexivity. now destruct (H s0).
  - intros a Ha Hf. rewrite Ha. unfold minor_units. cbn [replace_comma bind].
    fold (with_dots a). now rewrite Hf.
  - intros e s' H.
    destruct (minor_units (di_amount info)) as [n|e1] eqn:Hm;
      [unfold ret in H; congruence|].
    apply minor_units_raises in Hm.
    destruct Hm as [-> | [-> | ->]]; simpl in H; unfold ret, raise in H;
      try discriminate.
    inversion H. now split.
Qed.

(** The loop over the candidates to judge: either every request is
    answered, and each candidate comes back with a verdict stored, or
    the first request that raises ends the loop. *)
Lemma add_verdicts_cases (info : doc_info) (cs : list candidate) :
  forall w tr,
    (exists judged s',
       add_verdicts W respond cs info (w, tr) = (Ok judged, s') /\
       Forall2 (fun c j => exists v, j = set_verdict c v) cs judged /\
       snd s' = tr ++ map (verdict_request info) cs) \/
    (exists e s' n,
       add_verdicts W respond cs info (w, tr) = (Raise e, s') /\
       (n < List.length cs)%nat /\
       snd s' = tr ++ map (verdict_request info) (firstn (S n) cs)).
Proof.
  induction cs as [|c cs IH]; intros w tr.
  - left. exists [], (w, tr). simpl. rewrite app_nil_r.
    repeat split. constructor.
  - destruct (respond (SuggestPaymentMatch c info) w) as [[v|e] w1] eqn:Hr.
    + destruct (IH w1 (tr ++ [Called (SuggestPaymentMatch c info)]))
        as [(judged & s' & H & HF & Ht)|(e & s' & n & H & Hn & Ht)].
      * left. exists (set_verdict c v :: judged), s'.
        split; [|split; [constructor; eauto|]].
        { cbn [add_verdicts]. unfold mbind, do_call. now rewrite Hr, H. }
        rewrite Ht, <- app_assoc. reflexivity.
      * right. exists e, s', (S n).
        split; [|split; [simpl; lia|]].
        { cbn [add_verdicts]. unfold mbind, do_call. now rewrite Hr, H. }
        rewrite Ht, <- app_assoc. reflexivity.
    + right. exists e, (w1, tr ++ [Called (SuggestPaymentMatch c info)]), O.
      split; [|split; [simpl; lia|reflexivity]].
      cbn [add_verdicts]. unfold mbind, do_call. now rewrite Hr.
Qed.

Lemma mbind_run (A B : Type) (m : M W A) (k : A -> M W B)
    (s : run_state W) :
  mbind W m k s =
  match m s with
  | (Ok a, s') => k a s'
  | (Raise e, s') => (Raise e, s')
  end.
Proof. reflexivity. Qed.

Lemma skipn_3_judged (candidates judged : list candidate) :
  List.length judged = List.length (firstn 3 candidates) ->
  List.length (judged ++ skipn 3 candidates) = List.length candidates /\
  skipn 3 (judged ++ skipn 3 candidates) = skipn 3 candidates.
Proof.
  intro Hlen. split.
  - rewrite length_app, Hlen, <- length_app, firstn_skipn. reflexivity.
  - rewrite skipn_app, Hlen.
    assert (Hl : (List.length (firstn 3 candidates) <= 3)%nat)
      by apply firstn_le_length.
    rewrite (skipn_all2 judged) by lia.
    replace (3 - List.length (firstn 3 candidates))%nat
      with (3 - Nat.min 3 (List.length candidates))%nat
      by now rewrite length_firstn.
    destruct (Nat.le_gt_cases 3 (List.length candidates)) as [Hge|Hlt].
    + rewrite Nat.min_l by assumption. now rewrite Nat.sub_diag.
    + rewrite (skipn_all2 candidates) by lia. now rewrite skipn_nil.
Qed.

(** The verdicts of a pipeline run.  Once the payload is normalised,
    the attachment step and the journal suggestion have returned and the
    matcher has returned its candidates, the run goes on in one of two
    ways.  Either a verdict is requested for each of the first three
    candidates and for no other, in order, and then the notification is
    posted, with as many candidates as the matcher returned: the first
    three with their verdict stored and otherwise unchanged, the others
    untouched.  Or one of those at most three requests raises: no
    further verdict is requested, no notification is posted, and the
    exception leaves the steps after the fetch. *)
Theorem process_raw_verdicts (doc_type doc_id : string) (raw : value)
    (info : doc_info) (permalink journal : value) (amount_cents : Z)
    (candidates : list candidate) (s s1 s2 s3 : run_state W) :
  extract_doc_info raw doc_type = Ok info ->
  upload_first_attachment W respond SLACK_CHANNEL_ID format_value
    info doc_type doc_id s = (Ok permalink, s1) ->
  do_call W respond (SuggestJournalEntry info) s1 = (Ok journal, s2) ->
  amount_cents_of W info s2 = (Ok amount_cents, s2) ->
  find_payment_candidates W respond amount_cents (di_contact info) 100 s2 =
    (Ok candidates, s3) ->
  (exists judged,
     Forall2 (fun c j => exists v, j = set_verdict c v)
             (firstn 3 candidates) judged /\
     List.length (judged ++ skipn 3 candidates) = List.length candidates /\
     skipn 3 (judged ++ skipn 3 candidates) = skipn 3 candidates /\
     trace_of (process_raw W respond SLACK_CHANNEL_ID format_value
                 doc_type doc_id raw s) =
     snd s3 ++ map (verdict_request info) (firstn 3 candidates)
            ++ [Called (PostDocumentNotification info journal
                          (judged ++ skipn 3 candidates) permalink)]) \/
  (exists e n,
     (n < 3)%nat /\ (n < List.length candidates)%nat /\
     fst (process_raw W respond SLACK_CHANNEL_ID format_value
            doc_type doc_id raw s) = Raise e /\
     trace_of (process_raw W respond SLACK_CHANNEL_ID format_value
                 doc_type doc_id raw s) =
     snd s3 ++ map (verdict_request info) (firstn (S n) candidates)).
Proof.
  intros Hi Hu Hj Ha Hf.
  assert (Hrun :
    process_raw W respond SLACK_CHANNEL_ID format_value doc_type doc_id raw s =
    mbind W (add_verdicts W respond (first3 candidates) info)
      (fun judged =>
         mbind W (do_call W respond
                    (PostDocumentNotification info journal
                       (judged ++ skipn 3 candidates) permalink))
           (fun _ => ret W tt)) s3).
  { unfold process_raw.
    unfold mbind at 1, lift at 1. rewrite Hi.
    unfold mbind at 1. rewrite Hu.
    unfold mbind at 1. rewrite Hj.
    unfold mbind at 1. rewrite Ha.
    unfold mbind at 1. rewrite Hf. reflexivity. }
  rewrite Hrun. clear Hrun. destruct s3 as [w3 tr3].
  destruct (add_verdicts_cases info (first3 candidates) w3 tr3)
    as [(judged & [w4 tr4] & H & HF & Ht)|(e & s' & n & H & Hn & Ht)];
    rewrite (mbind_run _ _ (add_verdicts W respond (first3 candidates) info)),
      H; unfold first3 in *.
  - left. exists judged. split; [assumption|].
    destruct (skipn_3_judged candidates judged) as [Hl Hs].
    { symmetry. exact (Forall2_length HF). }
    split; [assumption|]. split; [assumption|].
    unfold mbind, do_call, trace_of. simpl in Ht. subst tr4.
    destruct (respond _ w4) as [[v|e] w5]; simpl; now rewrite <- app_assoc.
  - right. exists e, n.
    assert (Hn3 : (n < 3)%nat).
    { pose proof (firstn_le_length 3 candidates). lia. }
    assert (Hnl : (n < List.length candidates)%nat).
    { rewrite length_firstn in Hn. lia. }
    split; [assumption|]. split; [assumption|].
    rewrite firstn_firstn in Ht.
    replace (Nat.min (S n) 3) with (S n) in Ht by lia.
    split; [reflexivity|exact Ht].
Qed.

End PipelineFacts.

(** ** The shape of a pipeline run *)

Section PipelineShape.

Variable W : Type.
Variable respond : call -> W -> result value * W.
Variable SLACK_CHANNEL_ID : string.
Variable format_value : value -> string.

Lemma post_last_bind (A B : Type) (m : M W A) (k : A -> M W B) :
  adds is_plain m -> (forall a, post_last (k a)) -> post_last (mbind W m k).
Proof.
  intros Hm Hk s. destruct (Hm s) as (ev1 & H1 & P1).
  unfold mbind, trace_of in *.
  destruct (m s) as [[a|e] s1]; simpl in H1.
  - destruct (Hk a s1) as (pre & post & H2 & P2 & Hpost).
    exists (ev1 ++ pre), post. unfold trace_of in H2.
    rewrite H2, H1, forallb_app, P1, P2, <- !app_assoc. auto.
  - exists ev1, []. rewrite app_nil_r. auto.
Qed.

Lemma post_last_post (info : doc_info) (journal : value)
    (candidates : list candidate) (permalink : value) :
  post_last (mbind W
               (do_call W respond
                  (PostDocumentNotification info journal candidates permalink))
               (fun _ => ret W tt)).
Proof.
  intros [w tr].
  exists [], [Called (PostDocumentNotification info journal candidates
                        permalink)].
  unfold mbind, do_call, ret, trace_of.
  destruct (respond _ w) as [[v|e] w1]; simpl; eauto 10.
Qed.

Ltac plainly :=
  repeat first
    [ match goal with |- forall _, _ => intro end
    | apply adds_mbind
    | apply adds_catch
    | apply adds_ret
    | apply adds_raise
    | apply adds_lift
    | apply adds_do_call; reflexivity
    | match goal with |- adds _ (if ?b then _ else _) => destruct b end
    | match goal with
      | |- adds _ (match ?x with _ => _ end) => destruct x
      end ].

Lemma add_verdicts_plain (info : doc_info) (cs : list candidate) :
  adds is_plain (add_verdicts W respond cs info).
Proof.
  induction cs as [|c cs IH]; simpl; [apply adds_ret|].
  apply adds_mbind; [apply adds_do_call; reflexivity|]. intro v.
  apply adds_mbind; [exact IH|]. intro rest. apply adds_ret.
Qed.

Lemma process_raw_post_last (doc_type doc_id : string) (raw : value) :
  post_last (process_raw W respond SLACK_CHANNEL_ID format_value
               doc_type doc_id raw).
Proof.
  unfold process_raw.
  apply post_last_bind; [apply adds_lift|]. intro info.
  apply post_last_bind.
  { unfold upload_first_attachment, get_attachment_content. plainly. }
  intro permalink.
  apply post_last_bind; [apply adds_do_call; reflexivity|]. intro journal.
  apply post_last_bind; [unfold amount_cents_of; plainly|]. intro cents.
  apply post_last_bind.
  { unfold find_payment_candidates, get_unreconciled_payments, _get.
    plainly. }
  intro candidates.
  apply post_last_bind; [apply add_verdicts_plain|]. intro judged.
  apply post_last_post.
Qed.

(** A run of the pipeline never raises.  Its events are calls other
    than the posting of the notification, then at most one posting of
    the notification, then at most one printed error, which names the
    pipeline: a notification is never posted twice, and nothing is
    called after it. *)
Theorem process_document_shape (doc_type doc_id : string) (w : W)
    (tr : list event) :
  exists pre post err,
    fst (process_document W respond SLACK_CHANNEL_ID format_value
           doc_type doc_id (w, tr)) = Ok tt /\
    trace_of (process_document W respond SLACK_CHANNEL_ID format_value
                doc_type doc_id (w, tr)) = tr ++ pre ++ post ++ err /\
    forallb is_plain pre = true /\
    (post = [] \/
     exists info journal candidates permalink,
       post = [Called (PostDocumentNotification info journal candidates
                         permalink)]) /\
    (err = [] \/ exists e, err = [PrintedError "process_document" e]).
Proof.
  assert (Hin : post_last
                  (mbind W (fetch_raw W respond doc_type doc_id)
                     (fun raw => process_raw W respond SLACK_CHANNEL_ID
                                   format_value doc_type doc_id raw))).
  { apply post_last_bind; [|intro raw; apply process_raw_post_last].
    unfold fetch_raw, get_receipt, get_typeless_document,
      get_purchase_invoice, _get. plainly. }
  destruct (Hin (w, tr)) as (pre & post & Ht & Hp & Hpost).
  unfold process_document, catch, trace_of in *.
  destruct (mbind W _ _ (w, tr)) as [[[]|e] [w1 tr1]]; simpl in Ht.
  - exists pre, post, []. rewrite app_nil_r. simpl.
    repeat split; auto.
  - exists pre, post, [PrintedError "process_document" e].
    simpl. rewrite Ht, <- !app_assoc.
    repeat split; eauto.
Qed.

End PipelineShape.

(** ** Facts about the webhook view *)

Section WebhookFacts.

Variable format_value : value -> string.

(** Whenever the view returns, the status is 200.  A thread is started
    only for a request that is not a GET, whose body is a dictionary
    with entity type Receipt or PurchaseInvoice and an action among
    created, updated and document_saved; its document kind is then
    "receipt" or "purchase_invoice" accordingly (a kind without ":"), its
    identifier the text of the entity identifier, and the body of the
    answer says "ok". *)
Theorem webhook_starts_only_documents (http_method : string)
    (body_json : result value) (o : webhook_outcome) :
  webhook format_value http_method body_json = Ok o ->
  status (wo_response o) = 200 /\
  forall kind id,
    wo_started o = Some (kind, id) ->
    String.eqb http_method "GET" = false /\
    body (wo_response o) = status_body "ok" /\
    count_char ":" kind = O /\
    exists d,
      body_json = Ok (VDict d) /\
      id = format_value (dict_get d "entity_id" (VStr "")) /\
      is_document_action (dict_get d "action" (VStr "")) = true /\
      ((kind = "receipt"%string /\
        dict_get d "entity_type" (VStr "") = VStr "Receipt") \/
       (kind = "purchase_invoice"%string /\
        dict_get d "entity_type" (VStr "") = VStr "PurchaseInvoice")).
Proof.
  unfold webhook. destruct (String.eqb http_method "GET").
  { intro H. injection H as <-. split; [reflexivity|]. discriminate. }
  destruct body_json as [parsed|e]; cbn [bind]; [|discriminate].
  unfold or_else.
  destruct (truthy parsed) eqn:Ht.
  - destruct parsed as [| | | | | |d]; try discriminate. cbn [get bind].
    destruct (is_str (dict_get d "entity_type" (VStr "")) "Receipt"
              && is_document_action (dict_get d "action" (VStr "")))
      eqn:H1.
    + intro H. injection H as <-. split; [reflexivity|].
      intros kind id Hs. injection Hs as <- <-.
      apply andb_prop in H1 as [He Ha]. apply is_str_eq in He.
      split; [reflexivity|]. split; [reflexivity|]. split; [reflexivity|].
      exists d. auto 10.
    + destruct (is_str (dict_get d "entity_type" (VStr "")) "PurchaseInvoice"
                && is_document_action (dict_get d "action" (VStr "")))
        eqn:H2.
      * intro H. injection H as <-. split; [reflexivity|].
        intros kind id Hs. injection Hs as <- <-.
        apply andb_prop in H2 as [He Ha]. apply is_str_eq in He.
        split; [reflexivity|]. split; [reflexivity|]. split; [reflexivity|].
        exists d. auto 10.
      * intro H. injection H as <-. split; [reflexivity|]. discriminate.
  - cbn. intro H. injection H as <-. split; [reflexivity|]. discriminate.
Qed.

(** The view raises exactly when the request is not a GET and either
    the decoding of the body raises (the same exception leaves) or the
    decoded body is truthy without being a dictionary (AttributeError);
    a falsy body, such as null or an empty list, counts as an empty
    event and is ignored. *)
Theorem webhook_errors (http_method : string) (body_json : result value) :
  (forall e,
     webhook format_value http_method body_json = Raise e <->
     String.eqb http_method "GET" = false /\
     (body_json = Raise e \/
      exists v, body_json = Ok v /\ truthy v = true /\ is_dict v = false /\
                e = AttributeError)) /\
  (forall v, String.eqb http_method "GET" = false ->
             body_json = Ok v -> truthy v = false ->
             exists o, webhook format_value http_method body_json = Ok o /\
                       wo_started o = None /\
                       body (wo_response o) = status_body "ignored").
Proof.
  unfold webhook. split.
  - intro e. destruct (String.eqb http_method "GET").
    { split; [discriminate|]. intros [H _]. discriminate. }
    destruct body_json as [parsed|e0]; cbn [bind].
    + unfold or_else. destruct (truthy parsed) eqn:Ht.
      * destruct parsed as [| | | | | |d]; cbn [get bind];
          try (split;
               [ intro H; injection H as <-; split; [reflexivity|];
                 right; eexists; repeat split; eauto
               | intros [_ [H|(v & H & _ & _ & ->)]];
                 [discriminate|reflexivity] ]).
        split.
        -- destruct (_ && _); [discriminate|].
           destruct (_ && _); discriminate.
        -- intros [_ [H|(v & H & _ & Hd & _)]]; [discriminate|].
           injection H as <-. discriminate.
      * cbn. split; [discriminate|].
        intros [_ [H|(v & H & Hv & _)]]; [discriminate|].
        injection H as <-. congruence.
    + split.
      * intro H. injection H as <-. auto.
      * intros [_ [H|(v & H & _)]]; [now injection H as <-|discriminate].
  - intros v -> Hb Ht. subst body_json. cbn [bind]. unfold or_else.
    rewrite Ht. cbn. eexists. repeat split.
Qed.

End WebhookFacts.

Lemma webhook_starts_only_documents_witness :
  count_char ":" "receipt" = O.
Proof.
  pose (d := [("entity_type", VStr "Receipt"); ("action", VStr "created");
              ("entity_id", VStr "77")]).
  exact (proj1 (proj2 (proj2
           (proj2 (webhook_starts_only_documents (fun _ => "77"%string) "POST"
                     (Ok (VDict d))
                     (mk_webhook_outcome (mk_response 200 (status_body "ok"))
                        (Some ("receipt"%string, "77"%string))
                        [WebhookEvent (VStr "Receipt") (VStr "created")
                           (VStr "77")])
                     eq_refl)
              "receipt"%string "77"%string eq_refl)))).
Defined.

(** ** Facts about the reply of the suggestion service *)

Lemma str_append_nil_r (s : string) : (s ++ "")%string = s.
Proof. induction s as [|c s IH]; simpl; [reflexivity|now rewrite IH]. Qed.

Lemma str_append_assoc (a b c : string) :
  ((a ++ b) ++ c)%string = (a ++ b ++ c)%string.
Proof. induction a as [|x a IH]; simpl; [reflexivity|now rewrite IH]. Qed.

Lemma split_fence_other (c : ascii) (s cur : string) :
  c <> "`"%char ->
  split_fence (String c s) cur = split_fence s (cur ++ String c "")%string.
Proof.
  intro H. destruct c as [[] [] [] [] [] [] [] []]; try reflexivity.
  exfalso. apply H. reflexivity.
Qed.

Lemma split_fence_tick1 (c : ascii) (s cur : string) :
  c <> "`"%char ->
  split_fence (String "`" (String c s)) cur =
  split_fence (String c s) (cur ++ "`")%string.
Proof.
  intro H. destruct c as [[] [] [] [] [] [] [] []]; try reflexivity.
  exfalso. apply H. reflexivity.
Qed.

Lemma split_fence_tick2 (c : ascii) (s cur : string) :
  c <> "`"%char ->
  split_fence (String "`" (String "`" (String c s))) cur =
  split_fence (String "`" (String c s)) (cur ++ "`")%string.
Proof.
  intro H. destruct c as [[] [] [] [] [] [] [] []]; try reflexivity.
  exfalso. apply H. reflexivity.
Qed.

Lemma split_fence_nonempty (s : string) :
  forall cur, split_fence s cur <> [].
Proof.
  induction s as [|c s IH]; intro cur; [discriminate|].
  destruct (Ascii.eqb_spec c "`") as [->|Hc].
  2:{ rewrite split_fence_other by assumption. apply IH. }
  destruct s as [|c2 s2]; [discriminate|].
  destruct (Ascii.eqb_spec c2 "`") as [->|H2].
  2:{ rewrite split_fence_tick1 by assumption. apply IH. }
  destruct s2 as [|c3 s3]; [discriminate|].
  destruct (Ascii.eqb_spec c3 "`") as [->|H3]; [discriminate|].
  rewrite split_fence_tick2 by assumption. apply IH.
Qed.

Lemma no_backtick_cons (c : ascii) (s : string) :
  no_backtick (String c s) = true -> c <> "`"%char /\ no_backtick s = true.
Proof.
  unfold no_backtick. simpl.
  destruct (Ascii.eqb_spec c "`"); [discriminate|]. auto.
Qed.

(** Up to the first fence a string without backtick is one part. *)
Lemma split_fence_clean (x : string) :
  forall rest cur,
    no_backtick x = true ->
    split_fence (x ++ fence ++ rest) cur =
    (cur ++ x)%string :: split_fence rest "".
Proof.
  induction x as [|c x IH]; intros rest cur H.
  - simpl. now rewrite str_append_nil_r.
  - apply no_backtick_cons in H as [Hc Hx].
    change ((String c x ++ fence ++ rest)%string)
      with (String c (x ++ fence ++ rest)).
    rewrite split_fence_other by assumption.
    rewrite IH by assumption. now rewrite str_append_assoc.
Qed.

Lemma prefix_append (a b : string) : String.prefix a (a ++ b) = true.
Proof.
  induction a as [|c a IH]; simpl; [now destruct b|].
  destruct (ascii_dec c c); [exact IH|contradiction].
Qed.

Lemma prefix_fence (raw : string) :
  String.prefix fence raw = true -> exists r, raw = (fence ++ r)%string.
Proof.
  intro H. apply prefix_correct in H. unfold fence in *.
  destruct raw as [|c1 [|c2 [|c3 r]]]; try discriminate.
  cbn in H. injection H as H1 H2 H3 _. subst c1 c2 c3.
  exists r. reflexivity.
Qed.

Lemma str_rstrip_keeps (c : ascii) (b : string) :
  is_str_space c = false ->
  str_rstrip (String c b) = String c (str_rstrip b).
Proof. intro H. simpl. rewrite H. now destruct (str_rstrip b). Qed.

Lemma str_rstrip_app (a b : string) :
  str_rstrip b <> ""%string ->
  str_rstrip (a ++ b) = (a ++ str_rstrip b)%string.
Proof.
  intro H. induction a as [|x a IH]; simpl; [reflexivity|].
  rewrite IH. destruct a; simpl; [|reflexivity].
  destruct (str_rstrip b); [contradiction|reflexivity].
Qed.

Lemma str_rstrip_fence (a tail : string) :
  str_rstrip (a ++ fence ++ tail) = (a ++ fence ++ str_rstrip tail)%string.
Proof.
  assert (H : str_rstrip (fence ++ tail) = (fence ++ str_rstrip tail)%string).
  { unfold fence. simpl append.
    now rewrite !str_rstrip_keeps by reflexivity. }
  rewrite str_rstrip_app; rewrite H; [reflexivity|discriminate].
Qed.

(** The fence is removed from every reply without an error: a reply
    that begins with a fence always has a second part. *)
Lemma unfence_total (text : string) : exists raw, unfence text = Ok raw.
Proof.
  unfold unfence. destruct (String.prefix fence (str_strip text)) eqn:Hp;
    [|eauto].
  apply prefix_fence in Hp as [r ->].
  change (split_fence (fence ++ r) "") with ("" :: split_fence r "")%string.
  pose proof (split_fence_nonempty r ""%string) as Hn.
  destruct (split_fence r "") as [|inner ps]; [contradiction|eauto].
Qed.

(** A fenced reply, with or without the [json] tag, whose body holds no
    backtick is reduced to exactly its body, whatever follows the
    closing fence. *)
Theorem unfence_fenced (body tail : string) :
  no_backtick body = true ->
  unfence ("```json" ++ body ++ "```" ++ tail) = Ok body /\
  (String.prefix "json" body = false ->
   unfence ("```" ++ body ++ "```" ++ tail) = Ok body).
Proof.
  intro Hb. unfold unfence, str_strip. split.
  - change (str_lstrip ("```json" ++ body ++ "```" ++ tail))
      with (("```json" ++ body) ++ fence ++ tail)%string.
    rewrite str_rstrip_fence.
    change (String.prefix fence
              (("```json" ++ body) ++ fence ++ str_rstrip tail))
      with true. cbv iota.
    change (split_fence (("```json" ++ body) ++ fence ++ str_rstrip tail) "")
      with ("" :: split_fence (("json" ++ body) ++ fence ++ str_rstrip tail)
                    "")%string.
    rewrite split_fence_clean by exact Hb.
    change ("" ++ "json" ++ body)%string with ("json" ++ body)%string.
    now rewrite prefix_append.
  - intro Hj.
    change (str_lstrip ("```" ++ body ++ "```" ++ tail))
      with (("```" ++ body) ++ fence ++ tail)%string.
    rewrite str_rstrip_fence.
    change ((("```" ++ body) ++ fence ++ str_rstrip tail)%string)
      with (fence ++ (body ++ fence ++ str_rstrip tail))%string.
    rewrite prefix_append.
    change (split_fence (fence ++ body ++ fence ++ str_rstrip tail) "")
      with ("" :: split_fence (body ++ fence ++ str_rstrip tail) "")%string.
    rewrite split_fence_clean by exact Hb.
    change ("" ++ body)%string with body. now rewrite Hj.
Qed.

Lemma unfence_fenced_witness :
  unfence ("```json" ++ "{}" ++ "```" ++ " ") = Ok "{}"%string.
Proof. exact (proj1 (unfence_fenced "{}" " " eq_refl)). Defined.

Section JournalFacts.

Variable json_loads : string -> result value.

(** Whatever the reply, removing the fence raises nothing (the second
    part of a reply that begins with a fence always exists) and the
    parsing step never raises JSONDecodeError: the text without its
    fence is decoded; when the decoder refuses it, the result is the
    fixed pair of accounts with that text as explanation; any other
    exception of the decoder leaves as it is. *)
Theorem journal_of_reply_outcome (text : string) :
  exists raw,
    unfence text = Ok raw /\
    (forall v, json_loads raw = Ok v -> journal_of_reply json_loads text = Ok v)
    /\
    (json_loads raw = Raise JSONDecodeError ->
     journal_of_reply json_loads text = Ok (journal_fallback raw)) /\
    (forall e, journal_of_reply json_loads text = Raise e ->
               json_loads raw = Raise e /\ e <> JSONDecodeError).
Proof.
  destruct (unfence_total text) as [raw Hr]. exists raw.
  unfold journal_of_reply. rewrite Hr. cbn [bind].
  split; [reflexivity|]. split; [now intros v ->|]. split; [now intros ->|].
  intros e. destruct (json_loads raw) as [v|e0]; [discriminate|].
  destruct e0; intro H; inversion H; subst; split;
    try reflexivity; discriminate.
Qed.

End JournalFacts.

Lemma journal_of_reply_outcome_witness :
  journal_of_reply (fun _ => Raise JSONDecodeError) " not json " =
  Ok (journal_fallback "not json").
Proof.
  destruct (journal_of_reply_outcome (fun _ => Raise JSONDecodeError)
              " not json ") as (raw & Hr & _ & Hf & _).
  injection Hr as <-. exact (Hf eq_refl).
Defined.

(** ** Facts about the notification and its buttons *)

Lemma split_max_join (a b : string) :
  count_char ":" a = O ->
  split_max ":" 1 (a ++ String ":" b) = [a; b].
Proof.
  induction a as [|x a IH]; simpl; intro H.
  - now rewrite split_max_zero.
  - destruct (Ascii.eqb x ":"); [discriminate|]. now rewrite IH.
Qed.

Lemma split_max_join2 (a b c : string) :
  count_char ":" a = O -> count_char ":" b = O ->
  split_max ":" 2 (a ++ String ":" (b ++ String ":" c)) = [a; b; c].
Proof.
  induction a as [|x a IH]; simpl; intros Ha Hb.
  - now rewrite split_max_join.
  - destruct (Ascii.eqb x ":"); [discriminate|]. now rewrite IH.
Qed.

Section NotifierFacts.

Variable format_value : value -> string.

Lemma append_candidate_lines_is_ok (cs : list candidate) :
  forall acc,
    is_ok (append_candidate_lines format_value cs acc) =
    forallb (fun c => is_string (verdict_of c)) cs.
Proof.
  induction cs as [|c cs IH]; intro acc; simpl; [reflexivity|].
  unfold candidate_line.
  destruct (verdict_of c); simpl; try reflexivity. apply IH.
Qed.

(** The blocks of the notification are built exactly when the journal
    suggestion is a dictionary and the verdict of each of the first
    three candidates is a string (a candidate without verdict counts as
    the empty string); otherwise the notifier raises before anything is
    posted. *)
Theorem notification_blocks_is_ok (info : doc_info) (journal : value)
    (payment_candidates : list candidate) (attachment_permalink : value) :
  is_ok (notification_blocks format_value info journal payment_candidates
           attachment_permalink) =
  is_dict journal &&
  forallb (fun c => is_string (verdict_of c)) (first3 payment_candidates).
Proof.
  unfold notification_blocks.
  destruct journal; try reflexivity. cbn [get bind is_dict andb].
  destruct payment_candidates as [|top cs]; [reflexivity|].
  rewrite <- (append_candidate_lines_is_ok (first3 (top :: cs)) []).
  destruct (append_candidate_lines format_value (first3 (top :: cs)) []);
    reflexivity.
Qed.

(** The buttons of a notification: a link button exactly when there is
    a candidate, carrying kind, document identifier and the identifier
    of the first candidate, then the book and the skip button, both
    carrying kind and document identifier. *)
Theorem notification_buttons (info : doc_info) (journal : value)
    (payment_candidates : list candidate) (attachment_permalink : value)
    (blocks : list value) :
  notification_blocks format_value info journal payment_candidates
    attachment_permalink = Ok blocks ->
  button_values blocks =
  match payment_candidates with
  | top :: _ =>
      [payment_value format_value (di_type info) (di_id info) (c_id top)]
  | [] => []
  end ++
  [document_value format_value (di_type info) (di_id info);
   document_value format_value (di_type info) (di_id info)].
Proof.
  unfold notification_blocks.
  destruct journal; try discriminate. cbn [get bind].
  destruct payment_candidates as [|top cs].
  - destruct (truthy attachment_permalink); intro H; injection H as <-;
      reflexivity.
  - destruct (append_candidate_lines format_value (first3 (top :: cs)) []);
      cbn [bind]; [|discriminate].
    destruct (truthy attachment_permalink); intro H; injection H as <-;
      reflexivity.
Qed.

Variable W : Type.
Variable respond : call -> W -> result value * W.

(** Button and callback agree.  For a document kind without ":", the
    value of the book and skip buttons splits back into the kind and
    the text of the document identifier, and the action it triggers
    begins by fetching that document.  The value of the link button
    splits back into kind, document and transaction exactly when the
    text of the document identifier holds no ":" (the transaction
    identifier may hold one). *)
Theorem button_round_trip (doc_type : string) (doc_id top_id : value)
    (channel ts : value) :
  count_char ":" doc_type = O ->
  split_max ":" 1 (document_value format_value doc_type doc_id) =
    [doc_type; format_value doc_id] /\
  starts_with (HttpGet (document_path doc_type (format_value doc_id)) [])
    (book_document W respond
       (VStr (document_value format_value doc_type doc_id)) channel ts) /\
  starts_with (HttpGet (document_path doc_type (format_value doc_id)) [])
    (skip_document W respond
       (VStr (document_value format_value doc_type doc_id)) channel ts) /\
  (split_max ":" 2 (payment_value format_value doc_type doc_id top_id) =
     [doc_type; format_value doc_id; format_value top_id] <->
   count_char ":" (format_value doc_id) = O).
Proof.
  intro Hk.
  assert (Hs : split_max ":" 1 (document_value format_value doc_type doc_id)
               = [doc_type; format_value doc_id])
    by (unfold document_value; now apply (split_max_join doc_type)).
  split; [exact Hs|].
  split; [now apply book_document_starts|].
  split; [now apply skip_document_starts|].
  unfold payment_value. split.
  - intro H.
    pose proof (split_max_parts_clean ":"
                  (doc_type ++ ":" ++ format_value doc_id ++ ":"
                   ++ format_value top_id) 2) as Hc.
    rewrite H in Hc. cbn [removelast] in Hc.
    inversion Hc as [|? ? _ Hc']. now inversion Hc'.
  - intro Hi. now apply (split_max_join2 doc_type).
Qed.

End NotifierFacts.

(** ** Sample runs of the further facts *)

Lemma slack_actions_unverified_no_effect_witness :
  snd (slack_actions unit (answering (Ok VNone)) "" sample_hmac
         (fun _ => Ok VNone)
         (mk_request None (Some "v0=") "" None) (S754_zero false) (tt, []))
  = (tt, []).
Proof.
  refine (proj1 (slack_actions_unverified_no_effect unit
                   (answering (Ok VNone)) "" sample_hmac (fun _ => Ok VNone)
                   (mk_request None (Some "v0=") "" None) (S754_zero false)
                   (tt, []) _)).
  discriminate.
Defined.

Lemma verify_slack_signature_true_iff_witness :
  verify_slack_signature "" sample_hmac sample_request (S754_zero false)
  = Ok true.
Proof.
  apply (proj2 (verify_slack_signature_true_iff "" sample_hmac
                  sample_request (S754_zero false))).
  exists 0, (S754_zero false). repeat split.
Defined.

Lemma slack_actions_hides_downstream_failures_witness :
  exists cs err,
    slack_actions unit (answering (Raise HTTPError)) "" sample_hmac
      (fun _ => Ok (sample_payload "book_document" "receipt:1"))
      sample_request (S754_zero false) (tt, []) =
    (Ok empty_ok,
     (replay (answering (Raise HTTPError)) tt cs,
      [] ++ map Called cs ++ err)) /\
    (err = [] \/
     exists name e,
       VStr "book_document" = VStr name /\ err = [PrintedError name e]) /\
    (all_answered (answering (Raise HTTPError)) tt cs = false ->
     exists name e,
       VStr "book_document" = VStr name /\ err = [PrintedError name e]).
Proof.
  exact (slack_actions_hides_downstream_failures unit
           (answering (Raise HTTPError)) "" sample_hmac
           (fun _ => Ok (sample_payload "book_document" "receipt:1"))
           sample_request (S754_zero false)
           (sample_payload "book_document" "receipt:1")
           (VStr "book_document") (VStr "") (VStr "") "receipt:1" tt []
           eq_refl eq_refl eq_refl).
Defined.

Lemma slack_actions_unknown_action_ignored_witness :
  slack_actions unit (answering (Ok VNone)) "" sample_hmac
    (fun _ => Ok (sample_payload "open_menu" "receipt:1"))
    sample_request (S754_zero false) (tt, [])
  = (Ok empty_ok, (tt, [])) /\
  slack_actions unit (answering (Ok VNone)) "" sample_hmac
    (fun _ => Ok (sample_payload_null_container "open_menu" "receipt:1"))
    sample_request (S754_zero false) (tt, [])
  = (Raise AttributeError, (tt, [])).
Proof.
  split.
  - exact (proj1 (proj2
             (slack_actions_unknown_action_ignored unit
                (answering (Ok VNone)) "" sample_hmac
                (fun _ => Ok (sample_payload "open_menu" "receipt:1"))
                sample_request (S754_zero false)
                (sample_payload "open_menu" "receipt:1") (tt, [])
                eq_refl eq_refl))
             (VStr "open_menu") (VStr "receipt:1") (VStr "") (VStr "")
             eq_refl eq_refl eq_refl eq_refl).
  - exact (proj1 (proj2 (proj2
             (slack_actions_unknown_action_ignored unit
                (answering (Ok VNone)) "" sample_hmac
                (fun _ => Ok (sample_payload_null_container "open_menu"
                                "receipt:1"))
                sample_request (S754_zero false)
                (sample_payload_null_container "open_menu" "receipt:1")
                (tt, []) eq_refl eq_refl)))
             AttributeError eq_refl).
Defined.

Lemma book_document_failures_witness :
  book_document unit (answering (Raise HTTPError)) (VStr "receipt:1")
    (VStr "C") (VStr "1.0") (tt, []) =
  (Ok tt, (tt, [Called (HttpGet (document_path "receipt" "1") []);
                PrintedError "book_document" HTTPError])).
Proof.
  exact (proj1 (book_document_failures unit (answering (Raise HTTPError))
                  "receipt:1" "receipt" "1" (VStr "C") (VStr "1.0") tt []
                  eq_refl)
           HTTPError tt eq_refl).
Defined.

Lemma extract_doc_info_raises_witness :
  extract_doc_info (VList []) "receipt" = Raise AttributeError.
Proof.
  exact (proj2 (extract_doc_info_raises [] "receipt") (VList []) eq_refl).
Defined.

Lemma find_payment_candidates_without_transactions_witness :
  find_payment_candidates unit (answering (Raise HTTPError)) 1234 VNone 100
    (tt, []) =
  (Ok [], (tt, [Called unreconciled_query])).
Proof.
  exact (find_payment_candidates_without_transactions unit
           (answering (Raise HTTPError)) 1234 VNone 100 tt [] eq_refl).
Defined.

Lemma find_payment_candidates_errors_witness :
  is_ok (fst (find_payment_candidates unit
                (answering (Ok (VList [VDict [("amount", VStr "1e400")]])))
                0 VNone 100 (tt, []))) =
  forallb (tx_ok 0 100) [VDict [("amount", VStr "1e400")]].
Proof.
  exact (proj1 (find_payment_candidates_errors unit
            (answering (Ok (VList [VDict [("amount", VStr "1e400")]])))
            0 VNone 100 tt [])).
Defined.

Lemma amount_cents_of_fallback_witness :
  amount_cents_of unit
    (normal_form [("total_amount", VInt 12)] "receipt" []) (tt, [])
  = (Ok 0, (tt, [])).
Proof.
  refine (proj1 (amount_cents_of_fallback unit
                   (normal_form [("total_amount", VInt 12)] "receipt" [])
                   (tt, [])) _).
  discriminate.
Defined.

Lemma process_raw_verdicts_witness :
  exists judged,
    Forall2 (fun c j => exists v, j = set_verdict c v)
      (firstn 3 (map candidate_value sample_transactions)) judged /\
    List.length
      (judged ++ skipn 3 (map candidate_value sample_transactions)) = 4%nat /\
    trace_of (process_raw unit
                (answering (Ok (VList (map VDict sample_transactions))))
                "C1" (fun _ => ""%string) "receipt" "7"
                (VDict [("total_amount", VStr "1.00")]) (tt, [])) =
    [Called (SuggestJournalEntry
               (normal_form [("total_amount", VStr "1.00")] "receipt" []));
     Called unreconciled_query]
    ++ map (verdict_request
              (normal_form [("total_amount", VStr "1.00")] "receipt" []))
           (firstn 3 (map candidate_value sample_transactions))
    ++ [Called (PostDocumentNotification
                  (normal_form [("total_amount", VStr "1.00")] "receipt" [])
                  (VList (map VDict sample_transactions))
                  (judged ++ skipn 3 (map candidate_value sample_transactions))
                  VNone)].
Proof.
  pose (world := answering (Ok (VList (map VDict sample_transactions)))).
  pose (info := normal_form [("total_amount", VStr "1.00")] "receipt" []).
  destruct (process_raw_verdicts unit world "C1" (fun _ => ""%string)
              "receipt" "7" (VDict [("total_amount", VStr "1.00")])
              info VNone (VList (map VDict sample_transactions)) 100
              (map candidate_value sample_transactions)
              (tt, []) (tt, [])
              (tt, [Called (SuggestJournalEntry info)])
              (tt, [Called (SuggestJournalEntry info);
                    Called unreconciled_query])
              eq_refl eq_refl eq_refl eq_refl eq_refl)
    as [(judged & HF & Hl & _ & Ht)|(e & n & _ & _ & He & _)].
  - exists judged. split; [exact HF|]. split; [exact Hl|exact Ht].
  - vm_compute in He. discriminate He.
Defined.

Lemma webhook_errors_witness :
  exists o,
    webhook (fun _ => ""%string) "POST" (Ok VNone) = Ok o /\
    wo_started o = None /\
    body (wo_response o) = status_body "ignored".
Proof.
  exact (proj2 (webhook_errors (fun _ => ""%string) "POST" (Ok VNone))
           VNone eq_refl eq_refl eq_refl).
Defined.

Lemma notification_buttons_witness :
  exists blocks,
    notification_blocks (fun _ => "7"%string) (normal_form [] "receipt" [])
      (VDict []) [] VNone = Ok blocks /\
    button_values blocks = ["receipt:7"; "receipt:7"]%string.
Proof.
  destruct (notification_blocks (fun _ => "7"%string)
              (normal_form [] "receipt" []) (VDict []) [] VNone)
    as [blocks|e] eqn:H; [|discriminate H].
  exists blocks. split; [reflexivity|].
  exact (notification_buttons (fun _ => "7"%string)
           (normal_form [] "receipt" []) (VDict []) [] VNone blocks H).
Defined.

Lemma button_round_trip_witness :
  split_max ":" 1
    (document_value (fun _ => "7"%string) "purchase_invoice" (VInt 7)) =
  ["purchase_invoice"; "7"]%string.
Proof.
  exact (proj1 (button_round_trip (fun _ => "7"%string) unit
                  (answering (Ok VNone)) "purchase_invoice" (VInt 7)
                  (VInt 9) VNone VNone eq_refl)).
Defined.
